(** * rnnTF5-1.py: the echo task trained by truncated backpropagation

    A shallow embedding of the script [rnnTF5-1.py]: the synthetic data
    generator, the batch reshaping and column slicing, the TensorFlow graph
    the script assembles (cell stack, classifier head, loss), and the
    epoch / chunk training loop with its carried recurrent state.

    Integers of the script that count things are [nat]; array entries are
    [Z] (numpy integers); the floating point scalars of the graph are an
    abstract type supplied by an [Engine], together with the two library
    pieces the script only calls: one LSTM cell step and the optimizer
    step. *)

From Stdlib Require Import List Arith ZArith Lia Bool Permutation Floats.
Import ListNotations.

Set Warnings "-abstract-large-number".

Set Implicit Arguments.

(** ** Python exceptions the script can raise *)

Inductive PyError : Type :=
| ZeroDivisionError   (* [//] by zero, line 13 *)
| ValueError          (* numpy [reshape] with an incompatible size *)
| IndexError.         (* numpy index out of bounds, inside [plot] *)

Definition result (A : Type) : Type := (PyError + A)%type.

Definition bind_result {A B} (r : result A) (k : A -> result B) : result B :=
  match r with
  | inl e => inl e
  | inr a => k a
  end.

(** ** Hyperparameters (lines 6-14) *)

Record Config : Type := mkConfig {
  num_epochs : nat;
  total_series_length : nat;
  truncated_backprop_length : nat;
  state_size : nat;
  num_classes : nat;
  echo_step : nat;
  batch_size : nat;
  num_layers : nat
}.

(** The values written in the script. *)
Definition source_config : Config :=
  {| num_epochs := 100;
     total_series_length := 50000;
     truncated_backprop_length := 15;
     state_size := 4;
     num_classes := 2;
     echo_step := 3;
     batch_size := 5;
     num_layers := 3 |}.

(** Python's [a // b] on non-negative integers. *)
Definition floordiv (a b : nat) : result nat :=
  if b =? 0 then inl ZeroDivisionError else inr (a / b).

(** Line 13:
    [num_batches = total_series_length//batch_size//truncated_backprop_length] *)
Definition num_batches (cfg : Config) : result nat :=
  bind_result (floordiv (total_series_length cfg) (batch_size cfg))
    (fun q => floordiv q (truncated_backprop_length cfg)).

(** Width of one row of the reshaped grid (the [-1] of [reshape]). *)
Definition row_length (cfg : Config) : nat :=
  total_series_length cfg / batch_size cfg.

(** ** numpy operations used by [generateData] and the slicer *)

Definition Grid : Type := list (list Z).

(** [np.roll(a, shift)] on a one-dimensional array:
    [offset = shift % (n or 1)]; when the offset is not zero the last
    [offset] entries move to the front. *)
Definition np_roll (a : list Z) (shift : nat) : list Z :=
  let n := length a in
  let offset := shift mod (if n =? 0 then 1 else n) in
  if offset =? 0 then a
  else skipn (n - offset) a ++ firstn (n - offset) a.

(** [y[0:k] = 0]: slice assignment, the slice clipped to the array. *)
Definition assign_zero_prefix (k : nat) (y : list Z) : list Z :=
  repeat 0%Z (Nat.min k (length y)) ++ skipn k y.

(** Lines 18-19: the echo of a flat series. *)
Definition echo_of (k : nat) (x : list Z) : list Z :=
  assign_zero_prefix k (np_roll x k).

(** [rows k r a]: [k] consecutive rows of width [r] cut from [a]. *)
Fixpoint rows (k r : nat) (a : list Z) : Grid :=
  match k with
  | 0 => []
  | S k' => firstn r a :: rows k' r (skipn r a)
  end.

(** [a.reshape((b, -1))]: numpy refuses a zero known dimension and a size
    that [b] does not divide; otherwise the rows are cut in C order. *)
Definition reshape (b : nat) (a : list Z) : result Grid :=
  if b =? 0 then inl ValueError
  else if length a mod b =? 0 then inr (rows b (length a / b) a)
  else inl ValueError.

(** [g.ravel()] / flattening in row-major order. *)
Definition flatten (g : Grid) : list Z := concat g.

(** [g[:, start:end]] *)
Definition col_slice (g : Grid) (start_idx end_idx : nat) : Grid :=
  map (fun row => firstn (end_idx - start_idx) (skipn start_idx row)) g.

(** Entry [g[b][j]] of a grid (0 outside, never used outside). *)
Definition entry (g : Grid) (b j : nat) : Z := nth j (nth b g []) 0%Z.

(** Lines 108-109: the column range of chunk [batch_idx]. *)
Definition chunk_range (cfg : Config) (batch_idx : nat) : nat * nat :=
  let start_idx := batch_idx * truncated_backprop_length cfg in
  let end_idx := start_idx + truncated_backprop_length cfg in
  (start_idx, end_idx).

(** The columns [start_idx, ..., end_idx - 1] of a range. *)
Definition range_columns (r : nat * nat) : list nat :=
  seq (fst r) (snd r - fst r).

(** Columns consumed by one epoch: the ranges of
    [for batch_idx in range(num_batches)], in loop order. *)
Definition covered_columns (cfg : Config) : result (list nat) :=
  bind_result (num_batches cfg)
    (fun n => inr (flat_map (fun k => range_columns (chunk_range cfg k)) (seq 0 n))).

(** ** The numeric engine

    What the script takes from TensorFlow without defining it: the scalar
    arithmetic of the tensors, the variable store of the session (the
    classifier's [W2] and [b2], the LSTM kernels and biases, the Adagrad
    accumulators), one step of an [LSTMCell], and the effect of running
    the [train_step] operation on the variable store. *)

Record LSTMStateTuple (T : Type) : Type := mkLSTM { c : T; h : T }.

Class Engine : Type := {
  scalar : Type;
  s_zero : scalar;
  s_add : scalar -> scalar -> scalar;
  s_mul : scalar -> scalar -> scalar;
  s_div : scalar -> scalar -> scalar;
  s_neg : scalar -> scalar;
  s_exp : scalar -> scalar;
  s_log : scalar -> scalar;
  s_of_Z : Z -> scalar;
  (* the variables of the session *)
  Vars : Type;
  var_W2 : Vars -> list (list scalar);
  var_b2 : Vars -> list (list scalar);
  (* [LSTMCell] number [idx] of the stack applied to [inputs] and a state:
     the new (c, h); the cell's output is the new [h] *)
  lstm_step : Vars -> nat -> list (list scalar) ->
              LSTMStateTuple (list (list scalar)) ->
              LSTMStateTuple (list (list scalar));
  (* [AdagradOptimizer(0.3).minimize(total_loss)] run on one feed *)
  train_step : Vars -> Grid -> Grid -> list (list (list (list scalar))) -> Vars
}.

Section Script.

Context {E : Engine}.

Definition Tensor1 : Type := list scalar.
Definition Tensor2 : Type := list Tensor1.
Definition Tensor4 : Type := list (list Tensor2).
Definition CellState : Type := LSTMStateTuple Tensor2.

(** [np.zeros((l, p, b, s))] *)
Definition zeros4 (l p b s : nat) : Tensor4 :=
  repeat (repeat (repeat (repeat s_zero s) b) p) l.

Definition s_sum (l : list scalar) : scalar := fold_right s_add s_zero l.

(** *** The graph (lines 26-66), as functions of the variables and the feed *)

(** Lines 30-34: the placeholder [init_state], unstacked along axis 0 and
    packed into one [LSTMStateTuple] per layer. *)
Definition rnn_tuple_state (cfg : Config) (init_state : Tensor4) : list CellState :=
  map (fun idx =>
         let state_per_layer := nth idx init_state [] in
         mkLSTM (nth 0 state_per_layer []) (nth 1 state_per_layer []))
      (seq 0 (num_layers cfg)).

(** Line 41: [tf.unstack(batchY_placeholder, axis=1)], one label vector per
    timestep. *)
Definition labels_series (cfg : Config) (batchY : Grid) : list (list Z) :=
  map (fun t => map (fun row => nth t row 0%Z) batchY)
      (seq 0 (truncated_backprop_length cfg)).

(** Line 50, the input of [dynamic_rnn]: [tf.expand_dims(batchX, -1)] read
    along the time axis, one [batch_size x 1] tensor per timestep. *)
Definition rnn_inputs (cfg : Config) (batchX : Grid) : list Tensor2 :=
  map (fun t => map (fun row => [s_of_Z (nth t row 0%Z)]) batchX)
      (seq 0 (truncated_backprop_length cfg)).

(** One [LSTMCell] call: the output is the new hidden value. *)
Definition lstm_cell_call (v : Vars) (idx : nat) (inputs : Tensor2) (state : CellState)
  : Tensor2 * CellState :=
  let new_state := lstm_step v idx inputs state in
  (h new_state, new_state).

(** The loop body of [MultiRNNCell.call]: cell [i] reads the output of the
    cell below and its own part of the state, and appends its new state. *)
Definition stack_step (v : Vars) (state : list CellState)
  (acc : Tensor2 * list CellState) (i : nat) : Tensor2 * list CellState :=
  let (cur_inp, new_states) := acc in
  let cur_state := nth i state (mkLSTM [] []) in
  let (out, new_state) := lstm_cell_call v i cur_inp cur_state in
  (out, new_states ++ [new_state]).

(** [MultiRNNCell.call]: the cells in order, each fed the output of the one
    below; the output of the stack is what the last cell returned. *)
Definition multi_rnn_cell_call (cfg : Config) (v : Vars) (inputs : Tensor2)
  (state : list CellState) : Tensor2 * list CellState :=
  fold_left (stack_step v state) (seq 0 (num_layers cfg)) (inputs, []).

(** [tf.nn.dynamic_rnn]: the stack applied timestep after timestep; the
    outputs per timestep (what line 56 unstacks along axis 1) and the
    state after the last timestep. *)
Fixpoint dynamic_rnn (cfg : Config) (v : Vars) (inputs : list Tensor2)
  (state : list CellState) : list Tensor2 * list CellState :=
  match inputs with
  | [] => ([], state)
  | inp :: rest =>
      let (out, state') := multi_rnn_cell_call cfg v inp state in
      let (outs, final_state) := dynamic_rnn cfg v rest state' in
      (out :: outs, final_state)
  end.

Definition states_series (cfg : Config) (v : Vars) (batchX : Grid) (init_state : Tensor4)
  : list Tensor2 :=
  fst (dynamic_rnn cfg v (rnn_inputs cfg batchX) (rnn_tuple_state cfg init_state)).

Definition current_state (cfg : Config) (v : Vars) (batchX : Grid) (init_state : Tensor4)
  : list CellState :=
  snd (dynamic_rnn cfg v (rnn_inputs cfg batchX) (rnn_tuple_state cfg init_state)).

Definition dot (a b : Tensor1) : scalar :=
  s_sum (map (fun p => s_mul (fst p) (snd p)) (combine a b)).

(** [tf.matmul(a, w)] for [w] with [n] columns. *)
Definition matmul (n : nat) (a w : Tensor2) : Tensor2 :=
  map (fun row => map (fun j => dot row (map (fun r => nth j r s_zero) w)) (seq 0 n)) a.

(** [m + b] with [b] of shape [(1, n)], broadcast over the rows of [m]. *)
Definition add_broadcast (m b : Tensor2) : Tensor2 :=
  map (fun row => map (fun p => s_add (fst p) (snd p)) (combine row (nth 0 b []))) m.

Definition softmax_row (r : Tensor1) : Tensor1 :=
  let es := map s_exp r in
  map (fun e => s_div e (s_sum es)) es.

(** [tf.nn.softmax], over the last axis. *)
Definition softmax (m : Tensor2) : Tensor2 := map softmax_row m.

(** The affine map of line 60 for one timestep. *)
Definition affine (cfg : Config) (W2 b2 : Tensor2) (state : Tensor2) : Tensor2 :=
  add_broadcast (matmul (num_classes cfg) state W2) b2.

(** Line 60 *)
Definition logits_series (cfg : Config) (v : Vars) (batchX : Grid) (init_state : Tensor4)
  : list Tensor2 :=
  map (fun state => affine cfg (var_W2 v) (var_b2 v) state)
      (states_series cfg v batchX init_state).

(** Line 61 *)
Definition predictions_series (cfg : Config) (v : Vars) (batchX : Grid)
  (init_state : Tensor4) : list Tensor2 :=
  map softmax (logits_series cfg v batchX init_state).

(** Cross-entropy of one row of logits against its class label:
    minus the log of the softmax entry of that class. *)
Definition xent_row (logits : Tensor1) (label : Z) : scalar :=
  s_neg (s_log (nth (Z.to_nat label) (softmax_row logits) s_zero)).

(** [tf.nn.sparse_softmax_cross_entropy_with_logits] *)
Definition sparse_softmax_cross_entropy_with_logits (logits : Tensor2) (labels : list Z)
  : Tensor1 :=
  map (fun p => xent_row (fst p) (snd p)) (combine logits labels).

(** [tf.reduce_mean] of a list of vectors: the mean of all their entries. *)
Definition reduce_mean (xs : list Tensor1) : scalar :=
  s_div (s_sum (concat xs)) (s_of_Z (Z.of_nat (length (concat xs)))).

(** Lines 65-66 *)
Definition losses (logits : list Tensor2) (labels : list (list Z)) : list Tensor1 :=
  map (fun p => sparse_softmax_cross_entropy_with_logits (fst p) (snd p))
      (combine logits labels).

Definition total_loss_of (logits : list Tensor2) (labels : list (list Z)) : scalar :=
  reduce_mean (losses logits labels).

Definition total_loss (cfg : Config) (v : Vars) (batchX batchY : Grid)
  (init_state : Tensor4) : scalar :=
  total_loss_of (logits_series cfg v batchX init_state) (labels_series cfg batchY).


(** The output of layer [l] of the stack on one call: layer 0 reads the
    input of the stack, layer [l+1] the output of layer [l]. *)
Fixpoint layer_output (v : Vars) (inputs : Tensor2) (state : list CellState) (l : nat)
  : Tensor2 :=
  match l with
  | 0 => fst (lstm_cell_call v 0 inputs (nth 0 state (mkLSTM [] [])))
  | S l' =>
      fst (lstm_cell_call v l (layer_output v inputs state l')
             (nth l state (mkLSTM [] [])))
  end.

(** The state of the stack before timestep [t] of a chunk. *)
Definition state_before (cfg : Config) (v : Vars) (batchX : Grid) (init_state : Tensor4)
  (t : nat) : list CellState :=
  snd (dynamic_rnn cfg v (firstn t (rnn_inputs cfg batchX))
         (rnn_tuple_state cfg init_state)).

(** The hidden output of layer [l] at timestep [t] of a chunk. *)
Definition hidden_output (cfg : Config) (v : Vars) (batchX : Grid) (init_state : Tensor4)
  (l t : nat) : Tensor2 :=
  layer_output v (nth t (rnn_inputs cfg batchX) [])
    (state_before cfg v batchX init_state t) l.

(** *** The script's variables, its events, and the monad of its steps *)

(** What the Python variable [_current_state] holds: the array of
    [np.zeros] (line 103) or the tuple of state tuples fetched by
    [sess.run] (line 114). *)
Inductive StateValue : Type :=
| NdArray (a : Tensor4)
| StateTuples (s : list CellState).

(** Conversion of a fed value to the array the placeholder receives. *)
Definition feed_array (s : StateValue) : Tensor4 :=
  match s with
  | NdArray a => a
  | StateTuples ts => map (fun t => [c t; h t]) ts
  end.

(** One [sess.run] of lines 114-120: the feed and the fetched values. *)
Record RunRecord : Type := mkRun {
  feed_batchX : Grid;
  feed_batchY : Grid;
  feed_init_state : StateValue;
  fetched_total_loss : scalar;
  fetched_current_state : list CellState;
  fetched_predictions_series : list Tensor2
}.

Inductive Event : Type :=
| EvNewData (epoch_idx : nat)                     (* line 105 *)
| EvSessRun (r : RunRecord)                       (* lines 114-120 *)
| EvStep (batch_idx : nat) (loss : scalar)        (* line 124 *)
| EvPlot (loss_list : list scalar) (predictions : list Tensor2)
         (batchX batchY : Grid).                  (* line 125 *)

Record LoopState : Type := mkLoopState {
  rng : nat -> bool;               (* the draws numpy's generator will give *)
  session : Vars;                  (* the variables held by the session *)
  loss_list : list scalar;
  _current_state : StateValue
}.

Record Outcome (A : Type) : Type := mkOutcome {
  value : result A;
  final : LoopState;
  events : list Event
}.

Definition M (A : Type) : Type := LoopState -> Outcome A.

Definition ret {A} (a : A) : M A := fun st => mkOutcome (inr a) st [].

Definition bind {A B} (m : M A) (k : A -> M B) : M B :=
  fun st =>
    let o := m st in
    match value o with
    | inl e => mkOutcome (inl e) (final o) (events o)
    | inr a =>
        let o' := k a (final o) in
        mkOutcome (value o') (final o') (events o ++ events o')
    end.

Definition raise {A} (e : PyError) : M A := fun st => mkOutcome (inl e) st [].

Definition lift {A} (r : result A) : M A := fun st => mkOutcome r st [].

Definition emit (ev : Event) : M unit := fun st => mkOutcome (inr tt) st [ev].

Definition get : M LoopState := fun st => mkOutcome (inr st) st [].

Definition put (st : LoopState) : M unit := fun _ => mkOutcome (inr tt) st [].

End Script.

Declare Scope script_scope.
Delimit Scope script_scope with script.
Notation "x <- m ;; k" := (bind m (fun x => k))
  (at level 61, m at next level, right associativity) : script_scope.
Notation "m ;; k" := (bind m (fun _ => k))
  (at level 61, right associativity) : script_scope.

Section Program.

Context {E : Engine}.

Local Open Scope script_scope.

(** [for a in l: body(a)], stopping at the first exception. *)
Fixpoint for_each {A} (l : list A) (body : A -> M unit) : M unit :=
  match l with
  | [] => ret tt
  | a :: l' => body a ;; for_each l' body
  end.

(** [np.random.choice(2, n, p=[0.5, 0.5])]: the next [n] draws. *)
Definition random_choice (n : nat) : M (list Z) :=
  fun st =>
    mkOutcome (inr (map (fun i => Z.b2z (rng st i)) (seq 0 n)))
      (mkLoopState (fun i => rng st (n + i)) (session st) (loss_list st)
         (_current_state st))
      [].

(** Lines 16-24 *)
Definition generateData (cfg : Config) : M (Grid * Grid) :=
  x <- random_choice (total_series_length cfg) ;;
  let y := np_roll x (echo_step cfg) in
  let y := assign_zero_prefix (echo_step cfg) y in
  x <- lift (reshape (batch_size cfg) x) ;;
  y <- lift (reshape (batch_size cfg) y) ;;
  ret (x, y).

(** Lines 73-91.  The call is recorded; the drawing itself is left out.
    The loop over [range(5)] indexes axis 1 of the predictions, of static
    size [batch_size], and the rows of [batchX] and [batchY]. *)
Definition plot (cfg : Config) (loss_list : list scalar)
  (predictions_series : list Tensor2) (batchX batchY : Grid) : M unit :=
  emit (EvPlot loss_list predictions_series batchX batchY) ;;
  for_each (seq 0 5)
    (fun batch_series_idx =>
       if batch_series_idx <? batch_size cfg then ret tt else raise IndexError).

(** Lines 114-120: one run of the session.  The fetched values are those
    of the forward pass on the variables before the update.  The run is
    taken to succeed: the chunks fed have the placeholders' shapes and
    the labels are 0 or 1, and the network sizes are those of
    [graph_builds]. *)
Definition sess_run (cfg : Config) (batchX batchY : Grid) (init_state : StateValue)
  : M RunRecord :=
  st <- get ;;
  let v := session st in
  let fed := feed_array init_state in
  let r := mkRun batchX batchY init_state
             (total_loss cfg v batchX batchY fed)
             (current_state cfg v batchX fed)
             (predictions_series cfg v batchX fed) in
  put (mkLoopState (rng st) (train_step v batchX batchY fed) (loss_list st)
         (_current_state st)) ;;
  emit (EvSessRun r) ;;
  ret r.

(** Lines 108-125: the body of the chunk loop. *)
Definition chunk_body (cfg : Config) (x y : Grid) (batch_idx : nat) : M unit :=
  let (start_idx, end_idx) := chunk_range cfg batch_idx in
  let batchX := col_slice x start_idx end_idx in
  let batchY := col_slice y start_idx end_idx in
  st <- get ;;
  r <- sess_run cfg batchX batchY (_current_state st) ;;
  st <- get ;;
  put (mkLoopState (rng st) (session st)
         (loss_list st ++ [fetched_total_loss r])
         (StateTuples (fetched_current_state r))) ;;
  if batch_idx mod 100 =? 0 then
    emit (EvStep batch_idx (fetched_total_loss r)) ;;
    st <- get ;;
    plot cfg (loss_list st) (fetched_predictions_series r) batchX batchY
  else ret tt.

(** Lines 102-125: the body of the epoch loop, [n] being [num_batches]. *)
Definition epoch_body (cfg : Config) (n : nat) (epoch_idx : nat) : M unit :=
  xy <- generateData cfg ;;
  st <- get ;;
  put (mkLoopState (rng st) (session st) (loss_list st)
         (NdArray (zeros4 (num_layers cfg) 2 (batch_size cfg) (state_size cfg)))) ;;
  emit (EvNewData epoch_idx) ;;
  for_each (seq 0 n) (chunk_body cfg (fst xy) (snd xy)).

(** The script: line 13, then the session block (lines 94-125), started
    with the generator and the initialized variables of [st]. *)
Definition main (cfg : Config) : M unit :=
  n <- lift (num_batches cfg) ;;
  st <- get ;;
  put (mkLoopState (rng st) (session st) [] (_current_state st)) ;;
  for_each (seq 0 (num_epochs cfg)) (epoch_body cfg n).

(** The loop state with which epoch [e] of a run starts, and what that
    epoch does from there. *)
Definition state_at_epoch (cfg : Config) (n : nat) (st : LoopState) (e : nat) : LoopState :=
  final (for_each (seq 0 e) (epoch_body cfg n) st).

Definition epoch_events (cfg : Config) (n : nat) (st : LoopState) (e : nat) : list Event :=
  events (epoch_body cfg n e (state_at_epoch cfg n st e)).

(** The session runs and the visualizer calls among some events. *)
Definition runs (evs : list Event) : list RunRecord :=
  flat_map (fun ev => match ev with EvSessRun r => [r] | _ => [] end) evs.

Definition plots (evs : list Event) : list Event :=
  filter (fun ev => match ev with EvPlot _ _ _ _ => true | _ => false end) evs.

(** The visualizer calls that a list of session runs calls for: run
    number [k] is drawn when [k] is a multiple of 100, with the losses up
    to and including its own. *)
Fixpoint plots_due (k : nat) (history : list scalar) (rs : list RunRecord) : list Event :=
  match rs with
  | [] => []
  | r :: rs' =>
      let history' := history ++ [fetched_total_loss r] in
      (if k mod 100 =? 0
       then [EvPlot history' (fetched_predictions_series r) (feed_batchX r) (feed_batchY r)]
       else [])
      ++ plots_due (S k) history' rs'
  end.

End Program.

(** ** A small engine to run the script on: integer scalars, a cell that
    copies its input, an optimizer that counts its steps. *)
Definition toy_engine : Engine :=
  {| scalar := Z;
     s_zero := 0%Z;
     s_add := Z.add;
     s_mul := Z.mul;
     s_div := Z.div;
     s_neg := Z.opp;
     s_exp := fun z => (z * z + 1)%Z;
     s_log := fun z => z;
     s_of_Z := fun z => z;
     Vars := nat;
     var_W2 := fun n => [[1%Z; Z.of_nat n]; [2%Z; 1%Z]];
     var_b2 := fun _ => [[0%Z; 1%Z]];
     lstm_step := fun _ _ inputs s => mkLSTM (h s) inputs;
     train_step := fun n _ _ _ => S n |}.

Definition toy_state : @LoopState toy_engine :=
  @mkLoopState toy_engine (fun i => Nat.odd (i / 2 + i / 5)) 0 [] (@NdArray toy_engine []).

Definition toy_config : Config :=
  {| num_epochs := 2;
     total_series_length := 60;
     truncated_backprop_length := 5;
     state_size := 1;
     num_classes := 2;
     echo_step := 3;
     batch_size := 5;
     num_layers := 2 |}.

(** ** Names for the steps of a run that raises nothing *)

(** The network sizes TensorFlow builds the graph for and runs it on:
    [MultiRNNCell] wants at least one cell, the cells at least one unit,
    and the labels 0 and 1 two classes.  The session is modelled for
    these. *)
Definition graph_builds (cfg : Config) : Prop :=
  1 <= num_layers cfg /\ 1 <= state_size cfg /\ 2 <= num_classes cfg.

(** The configurations on which every step of the loops goes through:
    line 13 divides by no zero, [reshape] accepts the series, [plot]
    finds its five rows, and the graph is built. *)
Definition runs_through (cfg : Config) : Prop :=
  truncated_backprop_length cfg <> 0 /\
  5 <= batch_size cfg /\
  total_series_length cfg mod batch_size cfg = 0 /\
  graph_builds cfg.

Section Steps.

Context {E : Engine}.

(** The series line 17 draws when the generator is as in [st]. *)
Definition drawn (cfg : Config) (st : LoopState) : list Z :=
  map (fun i => Z.b2z (rng st i)) (seq 0 (total_series_length cfg)).

(** The series epoch [e] of a run draws, the run started in [st]. *)
Definition epoch_draws (cfg : Config) (st : LoopState) (e : nat) : list Z :=
  map (fun i => Z.b2z (rng st (e * total_series_length cfg + i)))
      (seq 0 (total_series_length cfg)).

(** The two grids [generateData] returns from there. *)
Definition epoch_grids (cfg : Config) (st : LoopState) : Grid * Grid :=
  (rows (batch_size cfg) (row_length cfg) (drawn cfg st),
   rows (batch_size cfg) (row_length cfg) (echo_of (echo_step cfg) (drawn cfg st))).

Definition after_draw (cfg : Config) (st : LoopState) : LoopState :=
  mkLoopState (fun i => rng st (total_series_length cfg + i)) (session st)
    (loss_list st) (_current_state st).

(** The loop state after lines 102-103. *)
Definition epoch_start (cfg : Config) (st : LoopState) : LoopState :=
  mkLoopState (fun i => rng st (total_series_length cfg + i)) (session st)
    (loss_list st)
    (NdArray (zeros4 (num_layers cfg) 2 (batch_size cfg) (state_size cfg))).

(** The session run of chunk [k] made from state [st], and the state it
    leaves after line 121. *)
Definition chunk_run (cfg : Config) (x y : Grid) (k : nat) (st : LoopState) : RunRecord :=
  let batchX := col_slice x (fst (chunk_range cfg k)) (snd (chunk_range cfg k)) in
  let batchY := col_slice y (fst (chunk_range cfg k)) (snd (chunk_range cfg k)) in
  let fed := feed_array (_current_state st) in
  mkRun batchX batchY (_current_state st)
    (total_loss cfg (session st) batchX batchY fed)
    (current_state cfg (session st) batchX fed)
    (predictions_series cfg (session st) batchX fed).

Definition chunk_next (cfg : Config) (x y : Grid) (k : nat) (st : LoopState) : LoopState :=
  let r := chunk_run cfg x y k st in
  mkLoopState (rng st)
    (train_step (session st) (feed_batchX r) (feed_batchY r)
       (feed_array (_current_state st)))
    (loss_list st ++ [fetched_total_loss r])
    (StateTuples (fetched_current_state r)).

(** The events of chunk [k] made from state [st]. *)
Definition chunk_events (cfg : Config) (x y : Grid) (k : nat) (st : LoopState)
  : list Event :=
  let r := chunk_run cfg x y k st in
  EvSessRun r ::
  (if k mod 100 =? 0
   then [EvStep k (fetched_total_loss r);
         EvPlot (loss_list st ++ [fetched_total_loss r])
           (fetched_predictions_series r) (feed_batchX r) (feed_batchY r)]
   else []).

(** A run whose fetched values are those of the graph on its feed, for
    some value of the session's variables. *)
Definition graph_run (cfg : Config) (r : RunRecord) : Prop :=
  exists v : Vars,
    let fed := feed_array (feed_init_state r) in
    fetched_total_loss r = total_loss cfg v (feed_batchX r) (feed_batchY r) fed /\
    fetched_current_state r = current_state cfg v (feed_batchX r) fed /\
    fetched_predictions_series r = predictions_series cfg v (feed_batchX r) fed.

(** A list of runs in which each one is fed the state the one before
    fetched, the first one being fed [s]. *)
Fixpoint chained (s : StateValue) (rs : list RunRecord) : Prop :=
  match rs with
  | [] => True
  | r :: rs' =>
      feed_init_state r = s /\ chained (StateTuples (fetched_current_state r)) rs'
  end.

End Steps.

(** A chunk to feed the graph by hand. *)
Definition toy_batch : Grid :=
  [[1; 0; 1; 1; 0]; [0; 0; 1; 0; 1]; [1; 1; 1; 0; 0]; [0; 1; 0; 1; 1]; [1; 0; 0; 0; 1]]%Z.

(** A configuration with 101 chunks of one column in each epoch. *)
Definition long_config : Config :=
  {| num_epochs := 1;
     total_series_length := 505;
     truncated_backprop_length := 1;
     state_size := 1;
     num_classes := 2;
     echo_step := 3;
     batch_size := 5;
     num_layers := 1 |}.

(** A second small configuration, whose series length the batch size
    does not divide. *)
Definition ragged_config : Config :=
  {| num_epochs := 2;
     total_series_length := 61;
     truncated_backprop_length := 5;
     state_size := 1;
     num_classes := 2;
     echo_step := 3;
     batch_size := 5;
     num_layers := 2 |}.

(** ** Further names used by the facts below *)

(** An entry that is 0 or 1. *)
Definition is_bit (z : Z) : Prop := z = 0%Z \/ z = 1%Z.

(** The same configuration with chunks twice as long. *)
Definition double_chunk (cfg : Config) : Config :=
  {| num_epochs := num_epochs cfg;
     total_series_length := total_series_length cfg;
     truncated_backprop_length := 2 * truncated_backprop_length cfg;
     state_size := state_size cfg;
     num_classes := num_classes cfg;
     echo_step := echo_step cfg;
     batch_size := batch_size cfg;
     num_layers := num_layers cfg |}.

(** A configuration with three batch rows, fewer than [plot] draws. *)
Definition narrow_config : Config :=
  {| num_epochs := 2;
     total_series_length := 60;
     truncated_backprop_length := 5;
     state_size := 1;
     num_classes := 2;
     echo_step := 3;
     batch_size := 3;
     num_layers := 2 |}.

(** A configuration whose rows are shorter than one chunk. *)
Definition short_config : Config :=
  {| num_epochs := 3;
     total_series_length := 10;
     truncated_backprop_length := 7;
     state_size := 1;
     num_classes := 2;
     echo_step := 3;
     batch_size := 2;
     num_layers := 2 |}.

Section Replay.

Context {E : Engine}.

(** The variables after the [train_step] of one run. *)
Definition train_on (v : Vars) (r : RunRecord) : Vars :=
  train_step v (feed_batchX r) (feed_batchY r) (feed_array (feed_init_state r)).

(** A list of runs made one after the other on the variables [v]: each
    run fetches what the graph gives on the variables left by the runs
    before it. *)
Fixpoint trained_in_order (cfg : Config) (v : Vars) (rs : list RunRecord) : Prop :=
  match rs with
  | [] => True
  | r :: rs' =>
      let fed := feed_array (feed_init_state r) in
      (fetched_total_loss r = total_loss cfg v (feed_batchX r) (feed_batchY r) fed /\
       fetched_current_state r = current_state cfg v (feed_batchX r) fed /\
       fetched_predictions_series r = predictions_series cfg v (feed_batchX r) fed) /\
      trained_in_order cfg (train_on v r) rs'
  end.

End Replay.

(** ** An engine with floating point scalars

    Rocq's binary64 floats with their IEEE addition, multiplication and
    division; [exp] and [log] by truncated series.  TensorFlow computes
    in float32: the rounding of every addition is the same in kind. *)







(** * Facts about the array operations *)

Section ArrayFacts.

Lemma nth_skipn_shift (A : Type) (l : list A) (k i : nat) (d : A) :
  nth i (skipn k l) d = nth (k + i) l d.
Proof.
  revert l; induction k as [|k IH]; intros l; simpl.
  - reflexivity.
  - destruct l as [|a l]; simpl.
    + destruct i; reflexivity.
    + apply IH.
Qed.

Lemma nth_firstn_lt (A : Type) (l : list A) (k i : nat) (d : A) :
  i < k -> nth i (firstn k l) d = nth i l d.
Proof.
  revert l i; induction k as [|k IH]; intros l i Hi; [lia|].
  destruct l as [|a l]; simpl; [reflexivity|].
  destruct i as [|i]; [reflexivity|].
  apply IH; lia.
Qed.

Lemma firstn_plus (A : Type) (n m : nat) (l : list A) :
  firstn (n + m) l = firstn n l ++ firstn m (skipn n l).
Proof.
  revert l; induction n as [|n IH]; intros l; simpl; [reflexivity|].
  destruct l as [|a l]; simpl.
  - now rewrite firstn_nil.
  - now rewrite IH.
Qed.

Lemma nth_repeat_zero (n i : nat) : nth i (repeat 0%Z n) 0%Z = 0%Z.
Proof.
  revert i; induction n as [|n IH]; intros [|i]; simpl; auto.
Qed.

Lemma np_roll_length (a : list Z) (s : nat) : length (np_roll a s) = length a.
Proof.
  unfold np_roll.
  destruct (_ mod _ =? 0); [reflexivity|].
  rewrite length_app, length_skipn, length_firstn. lia.
Qed.

Lemma assign_zero_prefix_length (k : nat) (y : list Z) :
  length (assign_zero_prefix k y) = length y.
Proof.
  unfold assign_zero_prefix.
  rewrite length_app, repeat_length, length_skipn. lia.
Qed.

Lemma echo_of_length (k : nat) (x : list Z) : length (echo_of k x) = length x.
Proof.
  unfold echo_of. now rewrite assign_zero_prefix_length, np_roll_length.
Qed.

(** Entry [i] of the rolled array, for a shift smaller than the array. *)
Lemma np_roll_nth (a : list Z) (s i : nat) :
  s <= i -> i < length a -> nth i (np_roll a s) 0%Z = nth (i - s) a 0%Z.
Proof.
  intros Hs Hi. unfold np_roll.
  assert (Hn : (length a =? 0) = false) by (apply Nat.eqb_neq; lia).
  rewrite Hn.
  assert (Hmod : s mod length a = s) by (apply Nat.mod_small; lia).
  rewrite Hmod.
  destruct (s =? 0) eqn:Hz.
  - apply Nat.eqb_eq in Hz. subst s. now rewrite Nat.sub_0_r.
  - rewrite app_nth2; rewrite length_skipn.
    + replace (length a - (length a - s)) with s by lia.
      apply nth_firstn_lt. lia.
    + lia.
Qed.

(** The echo, entry by entry. *)
Lemma echo_of_nth (k : nat) (x : list Z) (i : nat) :
  i < length x ->
  nth i (echo_of k x) 0%Z = if i <? k then 0%Z else nth (i - k) x 0%Z.
Proof.
  intros Hi. unfold echo_of, assign_zero_prefix.
  rewrite np_roll_length.
  destruct (i <? k) eqn:Hik.
  - apply Nat.ltb_lt in Hik.
    rewrite app_nth1 by (rewrite repeat_length; lia).
    apply nth_repeat_zero.
  - apply Nat.ltb_ge in Hik.
    rewrite app_nth2; rewrite repeat_length; [|lia].
    replace (Nat.min k (length x)) with k by lia.
    rewrite nth_skipn_shift.
    replace (k + (i - k)) with i by lia.
    now apply np_roll_nth.
Qed.

Lemma rows_length (k r : nat) (a : list Z) : length (rows k r a) = k.
Proof.
  revert a; induction k as [|k IH]; intros a; simpl; [reflexivity|].
  now rewrite IH.
Qed.

Lemma rows_widths (k r : nat) (a : list Z) :
  length a = k * r -> Forall (fun row => length row = r) (rows k r a).
Proof.
  revert a; induction k as [|k IH]; intros a Ha; simpl; constructor.
  - rewrite length_firstn. simpl in Ha. lia.
  - apply IH. rewrite length_skipn. simpl in Ha. lia.
Qed.

Lemma rows_concat (k r : nat) (a : list Z) :
  length a = k * r -> concat (rows k r a) = a.
Proof.
  revert a; induction k as [|k IH]; intros a Ha; simpl.
  - simpl in Ha. destruct a; [reflexivity|discriminate].
  - rewrite IH.
    + apply firstn_skipn.
    + rewrite length_skipn. simpl in Ha. lia.
Qed.

(** Entry [(b, j)] of the grid is entry [b * r + j] of the flat array. *)
Lemma rows_entry (k r : nat) (a : list Z) (b j : nat) :
  b < k -> j < r ->
  entry (rows k r a) b j = nth (b * r + j) a 0%Z.
Proof.
  unfold entry.
  revert a b; induction k as [|k IH]; intros a b Hb Hj; [lia|].
  destruct b as [|b]; simpl.
  - now apply nth_firstn_lt.
  - rewrite IH by lia. rewrite nth_skipn_shift. f_equal. lia.
Qed.

Lemma reshape_ok (b : nat) (a : list Z) :
  b <> 0 -> length a mod b = 0 -> reshape b a = inr (rows b (length a / b) a).
Proof.
  intros Hb Hm. unfold reshape.
  destruct (b =? 0) eqn:Hb0; [apply Nat.eqb_eq in Hb0; contradiction|].
  now rewrite Hm.
Qed.

Lemma reshape_error (b : nat) (a : list Z) :
  length a mod b <> 0 -> reshape b a = inl ValueError.
Proof.
  intros Hm. unfold reshape.
  destruct (b =? 0); [reflexivity|].
  destruct (length a mod b =? 0) eqn:H0; [|reflexivity].
  apply Nat.eqb_eq in H0. contradiction.
Qed.

Lemma div_exact_mul (n b : nat) : b <> 0 -> n mod b = 0 -> n = b * (n / b).
Proof.
  intros Hb Hm. pose proof (Nat.div_mod n b Hb). lia.
Qed.

(** The chunks' columns, laid end to end. *)
Lemma chunk_columns_prefix (cfg : Config) (n : nat) :
  flat_map (fun k => range_columns (chunk_range cfg k)) (seq 0 n)
  = seq 0 (n * truncated_backprop_length cfg).
Proof.
  induction n as [|n IH]; [reflexivity|].
  rewrite seq_S, flat_map_app, IH. simpl.
  rewrite app_nil_r. unfold range_columns, chunk_range; simpl.
  replace (n * truncated_backprop_length cfg + truncated_backprop_length cfg
           - n * truncated_backprop_length cfg)
    with (truncated_backprop_length cfg) by lia.
  rewrite <- seq_app. f_equal. lia.
Qed.

Lemma num_batches_ok (cfg : Config) :
  batch_size cfg <> 0 -> truncated_backprop_length cfg <> 0 ->
  num_batches cfg = inr (row_length cfg / truncated_backprop_length cfg).
Proof.
  intros Hb Ht. unfold num_batches, floordiv, row_length.
  apply Nat.eqb_neq in Hb, Ht. rewrite Hb. simpl. now rewrite Ht.
Qed.

Lemma num_batches_inv (cfg : Config) (n : nat) :
  num_batches cfg = inr n ->
  batch_size cfg <> 0 /\ truncated_backprop_length cfg <> 0 /\
  n = row_length cfg / truncated_backprop_length cfg.
Proof.
  unfold num_batches, floordiv, row_length.
  destruct (batch_size cfg =? 0) eqn:Hb; simpl; [discriminate|].
  destruct (truncated_backprop_length cfg =? 0) eqn:Ht; [discriminate|].
  intros H; inversion H.
  apply Nat.eqb_neq in Hb, Ht. auto.
Qed.

(** The slices of one row laid end to end give its prefix. *)
Lemma row_slices_prefix (T : nat) (row : list Z) (n : nat) :
  n * T <= length row ->
  flat_map (fun k => firstn (k * T + T - k * T) (skipn (k * T) row)) (seq 0 n)
  = firstn (n * T) row.
Proof.
  induction n as [|n IH]; intros Hn; [reflexivity|].
  rewrite seq_S, flat_map_app, IH by (simpl in Hn; lia). simpl.
  rewrite app_nil_r.
  replace (n * T + T - n * T) with T by lia.
  replace (T + n * T) with (n * T + T) by lia.
  now rewrite firstn_plus.
Qed.

End ArrayFacts.

(** * Facts about the steps of the script *)

Section ProgramFacts.

Context {E : Engine}.

Lemma drawn_length (cfg : Config) (st : LoopState) :
  length (drawn cfg st) = total_series_length cfg.
Proof. unfold drawn. now rewrite length_map, length_seq. Qed.

Lemma generateData_ok (cfg : Config) (st : LoopState) :
  batch_size cfg <> 0 ->
  total_series_length cfg mod batch_size cfg = 0 ->
  generateData cfg st = mkOutcome (inr (epoch_grids cfg st)) (after_draw cfg st) [].
Proof.
  intros Hb Hm.
  unfold generateData, bind, random_choice, lift. cbn.
  fold (drawn cfg st).
  rewrite (reshape_ok (drawn cfg st) Hb) by (now rewrite drawn_length).
  cbn.
  fold (echo_of (echo_step cfg) (drawn cfg st)).
  rewrite (reshape_ok (echo_of (echo_step cfg) (drawn cfg st)) Hb)
    by (now rewrite echo_of_length, drawn_length).
  cbn. rewrite echo_of_length, drawn_length. reflexivity.
Qed.

Lemma generateData_error (cfg : Config) (st : LoopState) :
  total_series_length cfg mod batch_size cfg <> 0 ->
  generateData cfg st = mkOutcome (inl ValueError) (after_draw cfg st) [].
Proof.
  intros Hm.
  unfold generateData, bind, random_choice, lift. cbn.
  fold (drawn cfg st).
  rewrite (@reshape_error (batch_size cfg) (drawn cfg st))
    by (now rewrite drawn_length).
  reflexivity.
Qed.

Lemma plot_ok (cfg : Config) (ll : list scalar) (ps : list Tensor2) (bx by_ : Grid)
  (st : LoopState) :
  5 <= batch_size cfg ->
  plot cfg ll ps bx by_ st = mkOutcome (inr tt) st [EvPlot ll ps bx by_].
Proof.
  intros Hb. unfold plot.
  assert (H0 : (0 <? batch_size cfg) = true) by (apply Nat.ltb_lt; lia).
  assert (H1 : (1 <? batch_size cfg) = true) by (apply Nat.ltb_lt; lia).
  assert (H2 : (2 <? batch_size cfg) = true) by (apply Nat.ltb_lt; lia).
  assert (H3 : (3 <? batch_size cfg) = true) by (apply Nat.ltb_lt; lia).
  assert (H4 : (4 <? batch_size cfg) = true) by (apply Nat.ltb_lt; lia).
  unfold bind, emit, for_each, seq. cbn -[Nat.ltb].
  rewrite H0. cbn -[Nat.ltb]. rewrite H1. cbn -[Nat.ltb].
  rewrite H2. cbn -[Nat.ltb]. rewrite H3. cbn -[Nat.ltb].
  rewrite H4. reflexivity.
Qed.

Lemma chunk_body_ok (cfg : Config) (x y : Grid) (k : nat) (st : LoopState) :
  5 <= batch_size cfg ->
  chunk_body cfg x y k st
  = mkOutcome (inr tt) (chunk_next cfg x y k st) (chunk_events cfg x y k st).
Proof.
  intros Hb.
  unfold chunk_body, chunk_events, chunk_next, chunk_run, chunk_range.
  unfold bind at 1. cbn -[Nat.modulo plot].
  destruct (k mod 100 =? 0); cbn -[plot].
  - rewrite plot_ok by exact Hb. reflexivity.
  - reflexivity.
Qed.

Lemma outcome_eta (A : Type) (o : Outcome A) :
  mkOutcome (value o) (final o) (events o) = o.
Proof. now destruct o. Qed.

Lemma for_each_cons_ok (A : Type) (body : A -> M unit) (a : A) (l : list A)
  (st : LoopState) :
  value (body a st) = inr tt ->
  for_each (a :: l) body st
  = mkOutcome (value (for_each l body (final (body a st))))
      (final (for_each l body (final (body a st))))
      (events (body a st) ++ events (for_each l body (final (body a st)))).
Proof.
  intros Hv. cbn. unfold bind. now rewrite Hv.
Qed.

Lemma for_each_app_ok (A : Type) (body : A -> M unit) (l1 l2 : list A)
  (st : LoopState) :
  value (for_each l1 body st) = inr tt ->
  for_each (l1 ++ l2) body st
  = mkOutcome (value (for_each l2 body (final (for_each l1 body st))))
      (final (for_each l2 body (final (for_each l1 body st))))
      (events (for_each l1 body st)
       ++ events (for_each l2 body (final (for_each l1 body st)))).
Proof.
  revert st; induction l1 as [|a l1 IH]; intros st Hv.
  - cbn. now rewrite outcome_eta.
  - cbn in Hv |- *. unfold bind in Hv |- *.
    destruct (value (body a st)) as [e|[]] eqn:Ha; cbn in Hv; [discriminate|].
    rewrite IH by exact Hv. cbn. now rewrite app_assoc.
Qed.

Lemma runs_app (e1 e2 : list Event) : runs (e1 ++ e2) = runs e1 ++ runs e2.
Proof. apply flat_map_app. Qed.

Lemma plots_app (e1 e2 : list Event) : plots (e1 ++ e2) = plots e1 ++ plots e2.
Proof. apply filter_app. Qed.

Lemma runs_chunk_events (cfg : Config) (x y : Grid) (k : nat) (st : LoopState) :
  runs (chunk_events cfg x y k st) = [chunk_run cfg x y k st].
Proof.
  unfold chunk_events, runs. cbn -[Nat.modulo].
  destruct (k mod 100 =? 0); reflexivity.
Qed.

Lemma plots_chunk_events (cfg : Config) (x y : Grid) (k : nat) (st : LoopState) :
  plots (chunk_events cfg x y k st)
  = plots_due k (loss_list st) [chunk_run cfg x y k st].
Proof.
  unfold chunk_events. cbn -[Nat.modulo].
  destruct (k mod 100 =? 0); reflexivity.
Qed.

(** The chunk loop from index [s] on, started in any state. *)
Lemma chunk_loop_ok (cfg : Config) (x y : Grid) (n s : nat) (st : LoopState) :
  5 <= batch_size cfg ->
  let o := for_each (seq s n) (chunk_body cfg x y) st in
  value o = inr tt /\
  (forall i, rng (final o) i = rng st i) /\
  length (runs (events o)) = n /\
  chained (_current_state st) (runs (events o)) /\
  plots (events o) = plots_due s (loss_list st) (runs (events o)) /\
  map (fun r => (feed_batchX r, feed_batchY r)) (runs (events o))
  = map (fun k => (col_slice x (fst (chunk_range cfg k)) (snd (chunk_range cfg k)),
                   col_slice y (fst (chunk_range cfg k)) (snd (chunk_range cfg k))))
        (seq s n).
Proof.
  intros Hb. revert s st.
  induction n as [|n IH]; intros s st.
  - cbn. repeat split; auto.
  - cbn [seq].
    rewrite for_each_cons_ok by (now rewrite chunk_body_ok).
    rewrite chunk_body_ok by exact Hb. cbn [value final events].
    destruct (IH (S s) (chunk_next cfg x y s st))
      as (Hv & Hr & Hl & Hc & Hp & Hf).
    rewrite runs_app, plots_app, runs_chunk_events, plots_chunk_events.
    repeat split.
    + exact Hv.
    + intros i. now rewrite Hr.
    + cbn. now rewrite Hl.
    + exact Hc.
    + rewrite Hp. cbn -[Nat.modulo]. now rewrite app_nil_r.
    + cbn [app map]. now rewrite Hf.
Qed.

Lemma chunk_loop_graph (cfg : Config) (x y : Grid) (n s : nat) (st : LoopState) :
  5 <= batch_size cfg ->
  Forall (graph_run cfg) (runs (events (for_each (seq s n) (chunk_body cfg x y) st))).
Proof.
  intros Hb. revert s st.
  induction n as [|n IH]; intros s st; [constructor|].
  cbn [seq].
  rewrite for_each_cons_ok by (now rewrite chunk_body_ok).
  rewrite chunk_body_ok by exact Hb. cbn [value final events].
  rewrite runs_app, runs_chunk_events. cbn [app].
  constructor; [|apply IH].
  exists (session st). cbn. auto.
Qed.


Lemma runs_flat_map (A : Type) (f : A -> list Event) (l : list A) :
  runs (flat_map f l) = flat_map (fun a => runs (f a)) l.
Proof.
  induction l as [|a l IH]; [reflexivity|].
  cbn [flat_map]. now rewrite runs_app, IH.
Qed.

Lemma epoch_body_ok (cfg : Config) (n e : nat) (st : LoopState) :
  runs_through cfg ->
  epoch_body cfg n e st
  = let o := for_each (seq 0 n)
               (chunk_body cfg (fst (epoch_grids cfg st)) (snd (epoch_grids cfg st)))
               (epoch_start cfg st) in
    mkOutcome (value o) (final o) (EvNewData e :: events o).
Proof.
  intros (Ht & Hb & Hm & _).
  unfold epoch_body. unfold bind at 1.
  rewrite generateData_ok by (auto; lia).
  cbn [value final events]. unfold bind at 1. cbn [get value final events app].
  unfold bind at 1. cbn [put value final events app].
  unfold bind at 1. cbn [emit value final events app].
  reflexivity.
Qed.

Lemma epoch_body_value (cfg : Config) (n e : nat) (st : LoopState) :
  runs_through cfg -> value (epoch_body cfg n e st) = inr tt.
Proof.
  intros Hc. rewrite epoch_body_ok by exact Hc. cbn.
  destruct Hc as (_ & Hb & _).
  apply (chunk_loop_ok cfg _ _ n 0 _ Hb).
Qed.

Lemma epoch_body_rng (cfg : Config) (n e : nat) (st : LoopState) (i : nat) :
  runs_through cfg ->
  rng (final (epoch_body cfg n e st)) i = rng st (total_series_length cfg + i).
Proof.
  intros Hc. rewrite epoch_body_ok by exact Hc. cbn.
  destruct Hc as (_ & Hb & _).
  destruct (chunk_loop_ok cfg (fst (epoch_grids cfg st)) (snd (epoch_grids cfg st))
              n 0 (epoch_start cfg st) Hb) as (_ & Hr & _).
  now rewrite Hr.
Qed.

Lemma epoch_body_runs (cfg : Config) (n e : nat) (st : LoopState) :
  runs_through cfg -> length (runs (events (epoch_body cfg n e st))) = n.
Proof.
  intros Hc. rewrite epoch_body_ok by exact Hc. cbn.
  destruct Hc as (_ & Hb & _).
  apply (chunk_loop_ok cfg _ _ n 0 _ Hb).
Qed.

(** The epoch loop: it raises nothing, each epoch takes the next
    [total_series_length] draws, and makes [n] session runs. *)
Lemma epoch_loop_ok (cfg : Config) (n m s : nat) (st : LoopState) :
  runs_through cfg ->
  let o := for_each (seq s m) (epoch_body cfg n) st in
  value o = inr tt /\
  (forall i, rng (final o) i = rng st (m * total_series_length cfg + i)) /\
  length (runs (events o)) = m * n.
Proof.
  intros Hc. revert s st.
  induction m as [|m IH]; intros s st.
  - cbn. auto.
  - cbn [seq].
    rewrite for_each_cons_ok by (now apply epoch_body_value).
    cbn [value final events].
    destruct (IH (S s) (final (epoch_body cfg n s st))) as (Hv & Hr & Hl).
    repeat split.
    + exact Hv.
    + intros i. rewrite Hr, epoch_body_rng by exact Hc. f_equal. lia.
    + rewrite runs_app, length_app, Hl, epoch_body_runs by exact Hc. lia.
Qed.

(** The events of the epoch loop are those of its epochs, in order. *)
Lemma epoch_loop_events (cfg : Config) (n m : nat) (st : LoopState) :
  runs_through cfg ->
  events (for_each (seq 0 m) (epoch_body cfg n) st)
  = flat_map (epoch_events cfg n st) (seq 0 m).
Proof.
  intros Hc. induction m as [|m IH]; [reflexivity|].
  rewrite seq_S, flat_map_app, <- IH. cbn [Nat.add flat_map].
  rewrite for_each_app_ok by (apply (epoch_loop_ok n m 0 st Hc)).
  cbn [events]. f_equal.
  rewrite app_nil_r. unfold epoch_events, state_at_epoch.
  rewrite for_each_cons_ok by (now apply epoch_body_value).
  cbn. now rewrite app_nil_r.
Qed.

Lemma state_at_epoch_rng (cfg : Config) (n : nat) (st : LoopState) (e i : nat) :
  runs_through cfg ->
  rng (state_at_epoch cfg n st e) i = rng st (e * total_series_length cfg + i).
Proof.
  intros Hc. unfold state_at_epoch.
  apply (epoch_loop_ok n e 0 st Hc).
Qed.

Lemma epoch_draws_at (cfg : Config) (n : nat) (st : LoopState) (e : nat) :
  runs_through cfg ->
  drawn cfg (state_at_epoch cfg n st e) = epoch_draws cfg st e.
Proof.
  intros Hc. unfold drawn, epoch_draws.
  apply map_ext. intros i. now rewrite state_at_epoch_rng.
Qed.

(** What one epoch of a run does, in one place. *)
Lemma epoch_summary (cfg : Config) (n : nat) (st0 : LoopState) (e : nat) :
  runs_through cfg ->
  let st := state_at_epoch cfg n st0 e in
  let rs := runs (epoch_events cfg n st0 e) in
  length rs = n /\
  chained (NdArray (zeros4 (num_layers cfg) 2 (batch_size cfg) (state_size cfg))) rs /\
  plots (epoch_events cfg n st0 e) = plots_due 0 (loss_list st) rs /\
  map (fun r => (feed_batchX r, feed_batchY r)) rs
  = map (fun k =>
           (col_slice (fst (epoch_grids cfg st))
              (fst (chunk_range cfg k)) (snd (chunk_range cfg k)),
            col_slice (snd (epoch_grids cfg st))
              (fst (chunk_range cfg k)) (snd (chunk_range cfg k))))
        (seq 0 n) /\
  Forall (graph_run cfg) rs.
Proof.
  intros Hc st rs. subst rs. unfold epoch_events. fold st.
  rewrite epoch_body_ok by exact Hc. cbn [events].
  change (runs (EvNewData e :: ?l)) with (runs l).
  change (plots (EvNewData e :: ?l)) with (plots l).
  destruct Hc as (_ & Hb & _).
  destruct (chunk_loop_ok cfg (fst (epoch_grids cfg st)) (snd (epoch_grids cfg st))
              n 0 (epoch_start cfg st) Hb) as (_ & _ & Hl & Hch & Hp & Hf).
  repeat split; auto.
  now apply chunk_loop_graph.
Qed.

Lemma main_start (cfg : Config) (st : LoopState) (n : nat) :
  num_batches cfg = inr n ->
  main cfg st
  = for_each (seq 0 (num_epochs cfg)) (epoch_body cfg n)
      (mkLoopState (rng st) (session st) [] (_current_state st)).
Proof.
  intros Hn. unfold main, bind, lift, get, put. rewrite Hn.
  cbn [value final events app].
  apply outcome_eta.
Qed.

(** On a configuration that runs through, the script raises nothing and
    makes [num_batches] session runs in each epoch. *)
Lemma main_completes (cfg : Config) (st : LoopState) (n : nat) :
  num_batches cfg = inr n ->
  runs_through cfg ->
  value (main cfg st) = inr tt /\
  length (runs (events (main cfg st))) = num_epochs cfg * n /\
  events (main cfg st)
  = flat_map
      (epoch_events cfg n (mkLoopState (rng st) (session st) [] (_current_state st)))
      (seq 0 (num_epochs cfg)).
Proof.
  intros Hn Hc. rewrite main_start with (n := n) by exact Hn.
  destruct (epoch_loop_ok n (num_epochs cfg) 0
              (mkLoopState (rng st) (session st) [] (_current_state st)) Hc)
    as (Hv & _ & Hl).
  repeat split; auto.
  now apply epoch_loop_events.
Qed.

(** A series that the batch size does not divide stops the script in the
    first [generateData], with nothing run and nothing printed. *)
Lemma main_reshape_error (cfg : Config) (st : LoopState) (n : nat) :
  num_batches cfg = inr n ->
  total_series_length cfg mod batch_size cfg <> 0 ->
  num_epochs cfg <> 0 ->
  value (main cfg st) = inl ValueError /\ events (main cfg st) = [].
Proof.
  intros Hn Hm He. rewrite main_start with (n := n) by exact Hn.
  destruct (num_epochs cfg) as [|m]; [contradiction|].
  assert (Hepoch : forall e st',
             epoch_body cfg n e st' = mkOutcome (inl ValueError) (after_draw cfg st') []).
  { intros e st'. unfold epoch_body. unfold bind at 1.
    now rewrite generateData_error by exact Hm. }
  cbn [seq for_each]. unfold bind. rewrite Hepoch. cbn. auto.
Qed.

Lemma col_slice_shape (g : Grid) (s e b r : nat) :
  length g = b -> Forall (fun row => length row = r) g -> e <= r ->
  length (col_slice g s e) = b /\
  Forall (fun row => length row = e - s) (col_slice g s e).
Proof.
  intros Hg Hr He. unfold col_slice. split; [now rewrite length_map|].
  apply Forall_forall. intros row Hrow.
  apply in_map_iff in Hrow. destruct Hrow as (row0 & <- & Hin).
  rewrite Forall_forall in Hr. specialize (Hr row0 Hin).
  rewrite length_firstn, length_skipn. lia.
Qed.

(** Every chunk fed to the session has the full shape
    [batch_size x truncated_backprop_length]. *)
Lemma epoch_runs_shape (cfg : Config) (n : nat) (st0 : LoopState) (e : nat)
  (r : RunRecord) :
  runs_through cfg -> num_batches cfg = inr n ->
  In r (runs (epoch_events cfg n st0 e)) ->
  (length (feed_batchX r) = batch_size cfg /\
   Forall (fun row => length row = truncated_backprop_length cfg) (feed_batchX r)) /\
  (length (feed_batchY r) = batch_size cfg /\
   Forall (fun row => length row = truncated_backprop_length cfg) (feed_batchY r)).
Proof.
  intros Hc Hn Hin.
  destruct (epoch_summary n st0 e Hc) as (_ & _ & _ & Hf & _).
  apply (in_map (fun r => (feed_batchX r, feed_batchY r))) in Hin.
  rewrite Hf in Hin. apply in_map_iff in Hin.
  destruct Hin as (k & Hk & Hks). apply in_seq in Hks.
  injection Hk as Hx Hy.
  destruct (num_batches_inv cfg Hn) as (Hb & Ht & Hnn).
  destruct Hc as (_ & _ & Hm & _).
  pose proof (@div_exact_mul _ _ Hb Hm) as Hlen. fold (row_length cfg) in Hlen.
  pose proof (Nat.div_mod (row_length cfg) (truncated_backprop_length cfg) Ht) as Hd.
  rewrite <- Hnn in Hd.
  assert (Hend : k * truncated_backprop_length cfg + truncated_backprop_length cfg
                 <= row_length cfg) by nia.
  assert (Hw : k * truncated_backprop_length cfg + truncated_backprop_length cfg
               - k * truncated_backprop_length cfg
               = truncated_backprop_length cfg) by lia.
  assert (Hshape : forall a, length a = total_series_length cfg ->
            let s := col_slice (rows (batch_size cfg) (row_length cfg) a)
                       (k * truncated_backprop_length cfg)
                       (k * truncated_backprop_length cfg
                        + truncated_backprop_length cfg) in
            length s = batch_size cfg /\
            Forall (fun row => length row = truncated_backprop_length cfg) s).
  { intros a Ha.
    destruct (@col_slice_shape (rows (batch_size cfg) (row_length cfg) a)
                (k * truncated_backprop_length cfg)
                (k * truncated_backprop_length cfg + truncated_backprop_length cfg)
                (batch_size cfg) (row_length cfg)) as [H1 H2].
    - apply rows_length.
    - apply rows_widths. lia.
    - exact Hend.
    - split; [exact H1|]. now rewrite Hw in H2. }
  rewrite <- Hx, <- Hy.
  split; apply Hshape.
  - apply drawn_length.
  - now rewrite echo_of_length, drawn_length.
Qed.

(** The run of chunk [k] of an epoch is fed columns
    [k * truncated_backprop_length, ...] of the epoch's grids. *)
Lemma epoch_run_at (cfg : Config) (n : nat) (st0 : LoopState) (e k : nat)
  (r : RunRecord) :
  runs_through cfg ->
  nth_error (runs (epoch_events cfg n st0 e)) k = Some r ->
  k < n /\
  feed_batchX r
  = col_slice (fst (epoch_grids cfg (state_at_epoch cfg n st0 e)))
      (k * truncated_backprop_length cfg)
      (k * truncated_backprop_length cfg + truncated_backprop_length cfg) /\
  feed_batchY r
  = col_slice (snd (epoch_grids cfg (state_at_epoch cfg n st0 e)))
      (k * truncated_backprop_length cfg)
      (k * truncated_backprop_length cfg + truncated_backprop_length cfg).
Proof.
  intros Hc Hk.
  destruct (epoch_summary n st0 e Hc) as (_ & _ & _ & Hf & _).
  apply (map_nth_error (fun r => (feed_batchX r, feed_batchY r))) in Hk.
  rewrite Hf, nth_error_map in Hk.
  destruct (nth_error (seq 0 n) k) as [k'|] eqn:Hs; [|discriminate].
  assert (Hkn : k < n).
  { rewrite <- (length_seq n 0). apply nth_error_Some. now rewrite Hs. }
  apply (nth_error_nth _ _ 0) in Hs. rewrite seq_nth in Hs by exact Hkn.
  cbn in Hs. subst k'. cbn in Hk. injection Hk as Hx Hy.
  unfold chunk_range in Hx, Hy. cbn [fst snd] in Hx, Hy.
  auto.
Qed.

End ProgramFacts.

(** * Facts about the graph *)

Section ListFacts.

Variables A B : Type.

Lemma map_nth_seq (l : list A) (d : A) :
  map (fun i => nth i l d) (seq 0 (length l)) = l.
Proof.
  induction l as [|a l IH]; [reflexivity|].
  cbn [length seq map nth]. f_equal.
  rewrite <- seq_shift, map_map. exact IH.
Qed.

Lemma nth_map_seq (f : nat -> A) (n i : nat) (d : A) :
  i < n -> nth i (map f (seq 0 n)) d = f i.
Proof.
  intros Hi.
  rewrite (nth_indep _ d (f 0)) by (now rewrite length_map, length_seq).
  rewrite (map_nth f (seq 0 n) 0 i), seq_nth by exact Hi. reflexivity.
Qed.

Lemma nth_map_in (f : A -> B) (l : list A) (d' : B) (d : A) (i : nat) :
  i < length l -> nth i (map f l) d' = f (nth i l d).
Proof.
  revert i; induction l as [|a l IH]; intros i Hi; [cbn in Hi; lia|].
  destruct i as [|i]; [reflexivity|].
  cbn. apply IH. cbn in Hi. lia.
Qed.





End ListFacts.

Section GraphFacts.

Context {E : Engine}.

Lemma stack_prefix_top (v : Vars) (inp : Tensor2) (state : list CellState) (l : nat) :
  fst (fold_left (stack_step v state) (seq 0 (S l)) (inp, []))
  = layer_output v inp state l.
Proof.
  induction l as [|l IH]; [reflexivity|].
  rewrite seq_S, fold_left_app. cbn [Nat.add fold_left].
  destruct (fold_left (stack_step v state) (seq 0 (S l)) (inp, [])) as [cur ns].
  cbn in IH. subst cur. reflexivity.
Qed.

(** The stack returns what its last cell returned. *)
Lemma multi_rnn_cell_top (cfg : Config) (v : Vars) (inp : Tensor2)
  (state : list CellState) :
  1 <= num_layers cfg ->
  fst (multi_rnn_cell_call cfg v inp state)
  = layer_output v inp state (num_layers cfg - 1).
Proof.
  intros HL. unfold multi_rnn_cell_call.
  replace (num_layers cfg) with (S (num_layers cfg - 1)) at 1 by lia.
  apply stack_prefix_top.
Qed.

Lemma stack_states_length (v : Vars) (state : list CellState) (l : list nat)
  (acc : Tensor2 * list CellState) :
  length (snd (fold_left (stack_step v state) l acc)) = length (snd acc) + length l.
Proof.
  revert acc; induction l as [|i l IH]; intros [cur ns]; cbn [fold_left].
  - cbn. lia.
  - rewrite IH. cbn. rewrite length_app. cbn. lia.
Qed.

Lemma multi_rnn_cell_states (cfg : Config) (v : Vars) (inp : Tensor2)
  (state : list CellState) :
  length (snd (multi_rnn_cell_call cfg v inp state)) = num_layers cfg.
Proof.
  unfold multi_rnn_cell_call.
  rewrite (stack_states_length v state). cbn. now rewrite length_seq.
Qed.

Lemma stack_rows (v : Vars) (state : list CellState) (m : nat) :
  (forall v i x s, length (h (lstm_step v i x s)) = length x) ->
  forall (l : list nat) (acc : Tensor2 * list CellState),
    length (fst acc) = m ->
    length (fst (fold_left (stack_step v state) l acc)) = m.
Proof.
  intros Hrows l; induction l as [|i l IH]; intros [cur ns] Hm; cbn [fold_left].
  - exact Hm.
  - apply IH. cbn. rewrite Hrows. exact Hm.
Qed.

Lemma multi_rnn_cell_rows (cfg : Config) (v : Vars) (inp : Tensor2)
  (state : list CellState) :
  (forall v i x s, length (h (lstm_step v i x s)) = length x) ->
  length (fst (multi_rnn_cell_call cfg v inp state)) = length inp.
Proof.
  intros Hrows. unfold multi_rnn_cell_call.
  now apply (stack_rows v state Hrows).
Qed.

Lemma dynamic_rnn_state_length (cfg : Config) (v : Vars) (inputs : list Tensor2)
  (s0 : list CellState) :
  length s0 = num_layers cfg ->
  length (snd (dynamic_rnn cfg v inputs s0)) = num_layers cfg.
Proof.
  revert s0; induction inputs as [|inp rest IH]; intros s0 Hs; cbn.
  - exact Hs.
  - pose proof (multi_rnn_cell_states cfg v inp s0) as Hm.
    destruct (multi_rnn_cell_call cfg v inp s0) as [out s1].
    specialize (IH s1 Hm).
    destruct (dynamic_rnn cfg v rest s1) as [outs fin]. exact IH.
Qed.

(** The outputs of [dynamic_rnn], timestep by timestep. *)
Lemma dynamic_rnn_outputs (cfg : Config) (v : Vars) (inputs : list Tensor2)
  (s0 : list CellState) :
  fst (dynamic_rnn cfg v inputs s0)
  = map (fun t => fst (multi_rnn_cell_call cfg v (nth t inputs [])
                         (snd (dynamic_rnn cfg v (firstn t inputs) s0))))
        (seq 0 (length inputs)).
Proof.
  revert s0; induction inputs as [|inp rest IH]; intros s0; [reflexivity|].
  cbn [length seq map firstn nth dynamic_rnn snd].
  rewrite <- seq_shift, map_map.
  destruct (multi_rnn_cell_call cfg v inp s0) as [out s1] eqn:Hm.
  specialize (IH s1).
  destruct (dynamic_rnn cfg v rest s1) as [outs fin].
  cbn [fst] in *. rewrite IH. f_equal.
  apply map_ext. intros t. cbn [firstn nth dynamic_rnn].
  rewrite Hm.
  now destruct (dynamic_rnn cfg v (firstn t rest) s1).
Qed.

Lemma rnn_inputs_length (cfg : Config) (batchX : Grid) :
  length (rnn_inputs cfg batchX) = truncated_backprop_length cfg.
Proof. unfold rnn_inputs. now rewrite length_map, length_seq. Qed.

Lemma rnn_tuple_state_length (cfg : Config) (a : Tensor4) :
  length (rnn_tuple_state cfg a) = num_layers cfg.
Proof. unfold rnn_tuple_state. now rewrite length_map, length_seq. Qed.

Lemma states_series_steps (cfg : Config) (v : Vars) (batchX : Grid) (a : Tensor4) :
  states_series cfg v batchX a
  = map (fun t => fst (multi_rnn_cell_call cfg v (nth t (rnn_inputs cfg batchX) [])
                         (state_before cfg v batchX a t)))
        (seq 0 (truncated_backprop_length cfg)).
Proof.
  unfold states_series. rewrite dynamic_rnn_outputs, rnn_inputs_length.
  reflexivity.
Qed.

Lemma current_state_length (cfg : Config) (v : Vars) (batchX : Grid) (a : Tensor4) :
  length (current_state cfg v batchX a) = num_layers cfg.
Proof.
  unfold current_state. apply dynamic_rnn_state_length, rnn_tuple_state_length.
Qed.

(** Fed back as an array, a tuple of [num_layers] state tuples is read by
    the graph as the same tuple. *)
Lemma rnn_tuple_state_feed (cfg : Config) (s : list CellState) :
  length s = num_layers cfg ->
  rnn_tuple_state cfg (feed_array (StateTuples s)) = s.
Proof.
  intros Hs. unfold rnn_tuple_state. cbn [feed_array].
  transitivity (map (fun i => nth i s (mkLSTM [] [])) (seq 0 (length s)));
    [|apply map_nth_seq].
  rewrite Hs. apply map_ext_in. intros idx Hidx. apply in_seq in Hidx.
  rewrite (nth_map_in (fun t : CellState => [c t; h t]) s [] (mkLSTM [] []))
    by (unfold CellState in *; lia).
  cbn. now destruct (nth idx s (mkLSTM [] [])).
Qed.

Lemma softmax_row_length (r : Tensor1) : length (softmax_row r) = length r.
Proof. unfold softmax_row. now rewrite !length_map. Qed.

Lemma affine_rows (cfg : Config) (W b : Tensor2) (state : Tensor2) :
  length (affine cfg W b state) = length state.
Proof. unfold affine, add_broadcast, matmul. now rewrite !length_map. Qed.

Lemma affine_widths (cfg : Config) (W b : Tensor2) (state : Tensor2) :
  length (nth 0 b []) = num_classes cfg ->
  Forall (fun row => length row = num_classes cfg) (affine cfg W b state).
Proof.
  intros Hb. unfold affine, add_broadcast, matmul.
  rewrite map_map. apply Forall_forall. intros row Hrow.
  apply in_map_iff in Hrow. destruct Hrow as (r0 & <- & _).
  rewrite length_map, length_combine, length_map, length_seq, Hb. lia.
Qed.

End GraphFacts.

(** * The data pipeline *)

(** C7. Reshape round trip: a flat series whose length the batch size
    divides is reshaped into [batch_size] rows of equal width, and
    flattening that grid row by row gives the series back. *)
Theorem reshape_flatten_roundtrip (b : nat) (a : list Z) :
  b <> 0 -> length a mod b = 0 ->
  exists g, reshape b a = inr g /\
            flatten g = a /\
            length g = b /\
            Forall (fun row => length row = length a / b) g.
Proof.
  intros Hb Hm.
  exists (rows b (length a / b) a).
  pose proof (@div_exact_mul _ _ Hb Hm) as Hlen.
  split; [now apply reshape_ok|].
  split; [apply rows_concat; exact Hlen|].
  split; [apply rows_length|].
  apply rows_widths. exact Hlen.
Qed.

Lemma reshape_flatten_roundtrip_witness :
  3 <> 0 /\ length [1; 0; 1; 1; 0; 0]%Z mod 3 = 0 /\
  exists g, reshape 3 [1; 0; 1; 1; 0; 0]%Z = inr g /\
            flatten g = [1; 0; 1; 1; 0; 0]%Z /\
            length g = 3 /\
            Forall (fun row => length row = length [1; 0; 1; 1; 0; 0]%Z / 3) g.
Proof.
  split; [discriminate|].
  split; [reflexivity|].
  apply (@reshape_flatten_roundtrip 3 [1; 0; 1; 1; 0; 0]%Z);
    [discriminate | reflexivity].
Defined.

Section Pipeline.

Context {E : Engine}.

Lemma generateData_value (cfg : Config) (st : LoopState) :
  batch_size cfg <> 0 ->
  total_series_length cfg mod batch_size cfg = 0 ->
  value (generateData cfg st) = inr (epoch_grids cfg st).
Proof.
  intros Hb Hm. now rewrite generateData_ok.
Qed.

Lemma epoch_grids_flat (cfg : Config) (st : LoopState) :
  batch_size cfg <> 0 ->
  total_series_length cfg mod batch_size cfg = 0 ->
  flatten (fst (epoch_grids cfg st)) = drawn cfg st /\
  flatten (snd (epoch_grids cfg st)) = echo_of (echo_step cfg) (drawn cfg st).
Proof.
  intros Hb Hm. unfold epoch_grids, flatten, row_length. cbn [fst snd].
  pose proof (@div_exact_mul _ _ Hb Hm) as Hlen.
  split; apply rows_concat.
  - now rewrite drawn_length.
  - now rewrite echo_of_length, drawn_length.
Qed.

(** C2. Echo correctness: the two series [generateData] returns, read in
    flat order, have the same length [total_series_length]; the echo is 0
    at the first [echo_step] positions and repeats the input [echo_step]
    positions back everywhere else. *)
Theorem echo_correctness (cfg : Config) (st : LoopState) :
  batch_size cfg <> 0 ->
  total_series_length cfg mod batch_size cfg = 0 ->
  exists x y,
    value (generateData cfg st) = inr (x, y) /\
    length (flatten x) = total_series_length cfg /\
    length (flatten y) = total_series_length cfg /\
    forall i, i < total_series_length cfg ->
      (i < echo_step cfg -> nth i (flatten y) 0%Z = 0%Z) /\
      (echo_step cfg <= i ->
       nth i (flatten y) 0%Z = nth (i - echo_step cfg) (flatten x) 0%Z).
Proof.
  intros Hb Hm.
  exists (fst (epoch_grids cfg st)), (snd (epoch_grids cfg st)).
  destruct (epoch_grids_flat cfg st Hb Hm) as [Hx Hy].
  rewrite Hx, Hy, echo_of_length, drawn_length.
  split; [rewrite generateData_value by assumption; now destruct (epoch_grids cfg st)|].
  split; [reflexivity|]. split; [reflexivity|].
  intros i Hi.
  rewrite echo_of_nth by (now rewrite drawn_length).
  split; intros Hk.
  - apply Nat.ltb_lt in Hk. now rewrite Hk.
  - apply Nat.ltb_ge in Hk. now rewrite Hk.
Qed.

(** C10. In the grids, the echo of a row other than the first starts with
    the last [echo_step] inputs of the row above, because the shift is
    applied to the flat series before it is cut into rows; the zero fill
    is in row 0 only. *)
Theorem grid_echo_crosses_rows (cfg : Config) (st : LoopState) :
  batch_size cfg <> 0 ->
  total_series_length cfg mod batch_size cfg = 0 ->
  echo_step cfg <= row_length cfg ->
  exists x y,
    value (generateData cfg st) = inr (x, y) /\
    (forall b j, 1 <= b -> b < batch_size cfg -> j < echo_step cfg ->
       entry y b j = entry x (b - 1) (row_length cfg - echo_step cfg + j)) /\
    (forall j, j < echo_step cfg -> entry y 0 j = 0%Z).
Proof.
  intros Hb Hm Hlag.
  exists (fst (epoch_grids cfg st)), (snd (epoch_grids cfg st)).
  split; [rewrite generateData_value by assumption; now destruct (epoch_grids cfg st)|].
  pose proof (@div_exact_mul _ _ Hb Hm) as Hlen. fold (row_length cfg) in Hlen.
  unfold epoch_grids. cbn [fst snd].
  split.
  - intros b j Hb1 Hb2 Hj.
    rewrite !rows_entry by lia.
    assert (Hin : b * row_length cfg + j < length (drawn cfg st)).
    { rewrite drawn_length, Hlen. nia. }
    rewrite echo_of_nth by exact Hin.
    assert (Hge : (b * row_length cfg + j <? echo_step cfg) = false).
    { apply Nat.ltb_ge. nia. }
    rewrite Hge. f_equal.
    destruct b as [|b']; [lia|].
    cbn [Nat.sub Nat.mul]. rewrite Nat.sub_0_r. lia.
  - intros j Hj.
    rewrite rows_entry by lia.
    rewrite echo_of_nth by (rewrite drawn_length, Hlen; nia).
    cbn [Nat.mul Nat.add].
    apply Nat.ltb_lt in Hj. now rewrite Hj.
Qed.

End Pipeline.

Lemma echo_correctness_witness :
  batch_size toy_config <> 0 /\
  total_series_length toy_config mod batch_size toy_config = 0 /\
  exists x y,
    value (@generateData toy_engine toy_config toy_state) = inr (x, y) /\
    length (flatten x) = total_series_length toy_config /\
    length (flatten y) = total_series_length toy_config /\
    forall i, i < total_series_length toy_config ->
      (i < echo_step toy_config -> nth i (flatten y) 0%Z = 0%Z) /\
      (echo_step toy_config <= i ->
       nth i (flatten y) 0%Z = nth (i - echo_step toy_config) (flatten x) 0%Z).
Proof.
  split; [discriminate|].
  split; [reflexivity|].
  apply (@echo_correctness toy_engine toy_config toy_state);
    [discriminate | reflexivity].
Defined.

Lemma grid_echo_crosses_rows_witness :
  batch_size toy_config <> 0 /\
  total_series_length toy_config mod batch_size toy_config = 0 /\
  echo_step toy_config <= row_length toy_config /\
  exists x y,
    value (@generateData toy_engine toy_config toy_state) = inr (x, y) /\
    (forall b j, 1 <= b -> b < batch_size toy_config -> j < echo_step toy_config ->
       entry y b j
       = entry x (b - 1) (row_length toy_config - echo_step toy_config + j)) /\
    (forall j, j < echo_step toy_config -> entry y 0 j = 0%Z).
Proof.
  split; [discriminate|].
  split; [reflexivity|].
  split; [vm_compute; lia|].
  apply (@grid_echo_crosses_rows toy_engine toy_config toy_state);
    [discriminate | reflexivity | vm_compute; lia].
Defined.

(** On the small configuration the echo of row 1 does start with a 1. *)
Example grid_echo_row1_not_zero :
  match value (@generateData toy_engine toy_config toy_state) with
  | inr (x, y) => entry y 1 0 = 1%Z /\ entry x 0 9 = 1%Z
  | inl _ => False
  end.
Proof. vm_compute. auto. Qed.

(** * The batch slicer *)

(** C1 (amended). The chunks of an epoch, taken in loop order, cover the
    columns [0, num_batches * truncated_backprop_length) one after the
    other, without gap or overlap, where [num_batches] is the floor of
    [row_length / truncated_backprop_length]; this is a prefix of
    [0, row_length) that leaves [row_length mod truncated_backprop_length]
    columns out, and is all of it exactly when the chunk length divides
    the row length.  Row by row, the slices laid end to end are that
    prefix of the row. *)
Theorem chunk_coverage_prefix (cfg : Config) (n : nat) :
  num_batches cfg = inr n ->
  n = row_length cfg / truncated_backprop_length cfg /\
  covered_columns cfg = inr (seq 0 (n * truncated_backprop_length cfg)) /\
  n * truncated_backprop_length cfg <= row_length cfg /\
  row_length cfg - n * truncated_backprop_length cfg
  = row_length cfg mod truncated_backprop_length cfg /\
  (covered_columns cfg = inr (seq 0 (row_length cfg)) <->
   row_length cfg mod truncated_backprop_length cfg = 0) /\
  (forall row : list Z, length row = row_length cfg ->
     flat_map (fun k => firstn (snd (chunk_range cfg k) - fst (chunk_range cfg k))
                          (skipn (fst (chunk_range cfg k)) row))
              (seq 0 n)
     = firstn (n * truncated_backprop_length cfg) row).
Proof.
  intros Hn.
  destruct (num_batches_inv cfg Hn) as (Hb & Ht & Hnn).
  pose proof (Nat.div_mod (row_length cfg) (truncated_backprop_length cfg) Ht) as Hd.
  rewrite <- Hnn in Hd.
  assert (Hcov : covered_columns cfg = inr (seq 0 (n * truncated_backprop_length cfg))).
  { unfold covered_columns. rewrite Hn. cbn [bind_result].
    now rewrite chunk_columns_prefix. }
  split; [exact Hnn|]. split; [exact Hcov|].
  split; [lia|]. split; [lia|]. split.
  - rewrite Hcov. split.
    + intros H. injection H as H.
      apply (f_equal (@length nat)) in H. rewrite !length_seq in H. lia.
    + intros H0. do 2 f_equal. lia.
  - intros row Hrow. unfold chunk_range. cbn [fst snd].
    apply row_slices_prefix. lia.
Qed.

Lemma chunk_coverage_prefix_witness :
  num_batches toy_config = inr 2 /\
  covered_columns toy_config = inr (seq 0 (2 * truncated_backprop_length toy_config)) /\
  row_length toy_config - 2 * truncated_backprop_length toy_config = 2.
Proof.
  split; [reflexivity|].
  destruct (@chunk_coverage_prefix toy_config 2 eq_refl) as (_ & Hcov & _ & Hrest & _).
  split; [exact Hcov | exact Hrest].
Defined.

(** With the script's own constants the chunks of an epoch do not reach
    the end of the rows: 666 chunks of 15 columns against rows of 10000. *)
Lemma chunk_coverage_source_gap :
  covered_columns source_config <> inr (seq 0 (row_length source_config)).
Proof.
  intros H.
  apply (f_equal (fun r : result (list nat) =>
                    match r with
                    | inr l => length l =? 9990
                    | inl _ => false
                    end)) in H.
  vm_compute in H. discriminate.
Qed.

Section Slicer.

Context {E : Engine}.

(** C6 (amended). When line 13 divides by no zero and the graph is
    built: if the batch size does not divide the series length, the
    script stops with [ValueError] in the first [generateData], before
    any session run; if it does, and the batch has the five rows [plot]
    draws, the script raises nothing whether or not the chunk length
    divides the row length: each epoch makes the floor of
    [row_length / truncated_backprop_length] session runs, each on a
    chunk of the full shape cut from columns below
    [num_batches * truncated_backprop_length], so that the last
    [row_length mod truncated_backprop_length] columns of the rows are
    never fed. *)
Theorem slicer_failure_modes (cfg : Config) (st : LoopState) (n : nat) :
  num_batches cfg = inr n ->
  graph_builds cfg ->
  (total_series_length cfg mod batch_size cfg <> 0 -> num_epochs cfg <> 0 ->
   value (main cfg st) = inl ValueError /\ runs (events (main cfg st)) = []) /\
  (total_series_length cfg mod batch_size cfg = 0 -> 5 <= batch_size cfg ->
   value (main cfg st) = inr tt /\
   n = row_length cfg / truncated_backprop_length cfg /\
   length (runs (events (main cfg st))) = num_epochs cfg * n /\
   n * truncated_backprop_length cfg <= row_length cfg /\
   row_length cfg - n * truncated_backprop_length cfg
   = row_length cfg mod truncated_backprop_length cfg /\
   forall r, In r (runs (events (main cfg st))) ->
     (length (feed_batchX r) = batch_size cfg /\
      Forall (fun row => length row = truncated_backprop_length cfg) (feed_batchX r)) /\
     (length (feed_batchY r) = batch_size cfg /\
      Forall (fun row => length row = truncated_backprop_length cfg) (feed_batchY r)) /\
     exists e k,
       e < num_epochs cfg /\ k < n /\
       k * truncated_backprop_length cfg + truncated_backprop_length cfg
       <= n * truncated_backprop_length cfg /\
       feed_batchX r
       = col_slice (rows (batch_size cfg) (row_length cfg) (epoch_draws cfg st e))
           (k * truncated_backprop_length cfg)
           (k * truncated_backprop_length cfg + truncated_backprop_length cfg) /\
       feed_batchY r
       = col_slice (rows (batch_size cfg) (row_length cfg)
                      (echo_of (echo_step cfg) (epoch_draws cfg st e)))
           (k * truncated_backprop_length cfg)
           (k * truncated_backprop_length cfg + truncated_backprop_length cfg)).
Proof.
  intros Hn Hg.
  destruct (num_batches_inv cfg Hn) as (Hb & Ht & Hnn).
  split.
  - intros Hm He.
    destruct (@main_reshape_error _ cfg st n Hn Hm He) as [Hv Hev].
    split; [exact Hv | now rewrite Hev].
  - intros Hm Hb5.
    assert (Hc : runs_through cfg) by (unfold runs_through; auto).
    destruct (main_completes st Hn Hc) as (Hv & Hl & Hev).
    pose proof (Nat.div_mod (row_length cfg) (truncated_backprop_length cfg) Ht) as Hd.
    rewrite <- Hnn in Hd.
    split; [exact Hv|]. split; [exact Hnn|]. split; [exact Hl|].
    split; [lia|]. split; [lia|].
    intros r Hr.
    rewrite Hev, runs_flat_map in Hr.
    apply in_flat_map in Hr. destruct Hr as (e & He & Hin).
    apply in_seq in He.
    destruct (epoch_runs_shape _ _ _ Hc Hn Hin) as [HX HY].
    split; [exact HX|]. split; [exact HY|].
    apply In_nth_error in Hin. destruct Hin as [k Hk].
    destruct (epoch_run_at _ _ _ _ Hc Hk) as (Hkn & Hx & Hy).
    exists e, k.
    split; [lia|]. split; [exact Hkn|]. split; [nia|].
    rewrite Hx, Hy. unfold epoch_grids. cbn [fst snd].
    rewrite (epoch_draws_at n _ e Hc).
    split; reflexivity.
Qed.

End Slicer.

Lemma toy_graph_builds : graph_builds toy_config.
Proof. repeat split; vm_compute; lia. Defined.

Lemma slicer_failure_modes_witness :
  num_batches ragged_config = inr 2 /\
  graph_builds ragged_config /\
  value (@main toy_engine ragged_config toy_state) = inl ValueError /\
  num_batches toy_config = inr 2 /\
  row_length toy_config mod truncated_backprop_length toy_config = 2 /\
  value (@main toy_engine toy_config toy_state) = inr tt /\
  length (runs (events (@main toy_engine toy_config toy_state))) = 4.
Proof.
  split; [reflexivity|].
  split; [exact toy_graph_builds|].
  split.
  { destruct (@slicer_failure_modes toy_engine ragged_config toy_state 2 eq_refl
                toy_graph_builds) as [Herr _].
    apply Herr; vm_compute; discriminate. }
  split; [reflexivity|].
  split; [reflexivity|].
  destruct (@slicer_failure_modes toy_engine toy_config toy_state 2 eq_refl
              toy_graph_builds) as [_ Hrun].
  destruct Hrun as (Hv & _ & Hl & _); [reflexivity | vm_compute; lia |].
  split; [exact Hv | exact Hl].
Defined.

Lemma source_config_runs_through : runs_through source_config.
Proof.
  split; [vm_compute; discriminate|].
  split; [vm_compute; lia|].
  split; [vm_compute; reflexivity|].
  repeat split; vm_compute; lia.
Qed.

(** With the script's own constants the chunk length does not divide the
    row length (10000 mod 15 = 10), and the script raises nothing. *)
Lemma source_config_runs_ragged :
  row_length source_config mod truncated_backprop_length source_config <> 0 /\
  value (@main toy_engine source_config toy_state) = inr tt.
Proof.
  split; [vm_compute; discriminate|].
  apply (@main_completes toy_engine source_config toy_state 666).
  - vm_compute. reflexivity.
  - exact source_config_runs_through.
Qed.

(** * The training loop *)

Section Loop.

Context {E : Engine}.


(** C4. State reset: every epoch draws a fresh series (the next
    [total_series_length] draws of the generator), cuts its grids from it,
    and feeds its first chunk the array of zeros of shape
    [num_layers, 2, batch_size, state_size], whatever the loop state was
    when the epoch began. *)
Theorem state_reset (cfg : Config) (n : nat) (st : LoopState) (e : nat) :
  runs_through cfg ->
  num_batches cfg = inr n ->
  0 < n ->
  exists r,
    nth_error (runs (epoch_events cfg n st e)) 0 = Some r /\
    feed_init_state r
    = NdArray (zeros4 (num_layers cfg) 2 (batch_size cfg) (state_size cfg)) /\
    feed_batchX r
    = col_slice (rows (batch_size cfg) (row_length cfg) (epoch_draws cfg st e))
        0 (truncated_backprop_length cfg) /\
    feed_batchY r
    = col_slice (rows (batch_size cfg) (row_length cfg)
                   (echo_of (echo_step cfg) (epoch_draws cfg st e)))
        0 (truncated_backprop_length cfg).
Proof.
  intros Hc Hn Hpos.
  destruct (epoch_summary n st e Hc) as (Hl & Hch & _ & Hf & _).
  destruct (runs (epoch_events cfg n st e)) as [|r rs]; [cbn in Hl; lia|].
  exists r. split; [reflexivity|].
  destruct Hch as [Hfed _]. split; [exact Hfed|].
  destruct n as [|n']; [lia|].
  cbn [seq map] in Hf. injection Hf as Hx Hy _.
  unfold epoch_grids, chunk_range in Hx, Hy. cbn [fst snd Nat.mul Nat.add] in Hx, Hy.
  rewrite (epoch_draws_at (S n') st e Hc) in Hx, Hy.
  split; assumption.
Qed.

(** C8. The visualizer is called on the chunks of an epoch whose index is
    a multiple of 100, chunk 0 included, and on no other: the calls of an
    epoch are those that [plots_due] reads off its session runs, each
    with the loss history up to and including that chunk, the predictions
    fetched for it, and the two chunk grids fed for it, which are the
    column slices of the epoch's grids. *)
Theorem plot_every_hundredth_chunk (cfg : Config) (n : nat) (st : LoopState) (e : nat) :
  runs_through cfg ->
  num_batches cfg = inr n ->
  let evs := epoch_events cfg n st e in
  length (runs evs) = n /\
  plots evs = plots_due 0 (loss_list (state_at_epoch cfg n st e)) (runs evs) /\
  map (fun r => (feed_batchX r, feed_batchY r)) (runs evs)
  = map (fun k =>
           (col_slice (rows (batch_size cfg) (row_length cfg) (epoch_draws cfg st e))
              (k * truncated_backprop_length cfg)
              (k * truncated_backprop_length cfg + truncated_backprop_length cfg),
            col_slice (rows (batch_size cfg) (row_length cfg)
                         (echo_of (echo_step cfg) (epoch_draws cfg st e)))
              (k * truncated_backprop_length cfg)
              (k * truncated_backprop_length cfg + truncated_backprop_length cfg)))
        (seq 0 n).
Proof.
  intros Hc Hn evs.
  destruct (epoch_summary n st e Hc) as (Hl & _ & Hp & Hf & _).
  fold evs in Hl, Hp, Hf.
  split; [exact Hl|]. split; [exact Hp|].
  rewrite Hf. unfold epoch_grids, chunk_range. cbn [fst snd].
  now rewrite (epoch_draws_at n st e Hc).
Qed.

End Loop.

Lemma toy_config_runs_through : runs_through toy_config.
Proof.
  split; [discriminate|]. split; [vm_compute; lia|].
  split; [reflexivity | exact toy_graph_builds].
Defined.


Lemma state_reset_witness :
  runs_through toy_config /\
  num_batches toy_config = inr 2 /\
  0 < 2 /\
  exists r,
    nth_error (runs (@epoch_events toy_engine toy_config 2 toy_state 1)) 0 = Some r /\
    feed_init_state r
    = NdArray (@zeros4 toy_engine (num_layers toy_config) 2 (batch_size toy_config)
                 (state_size toy_config)) /\
    feed_batchX r
    = col_slice (rows (batch_size toy_config) (row_length toy_config)
                   (@epoch_draws toy_engine toy_config toy_state 1))
        0 (truncated_backprop_length toy_config) /\
    feed_batchY r
    = col_slice (rows (batch_size toy_config) (row_length toy_config)
                   (echo_of (echo_step toy_config)
                      (@epoch_draws toy_engine toy_config toy_state 1)))
        0 (truncated_backprop_length toy_config).
Proof.
  split; [exact toy_config_runs_through|].
  split; [reflexivity|].
  split; [lia|].
  apply (@state_reset toy_engine toy_config 2 toy_state 1
           toy_config_runs_through eq_refl).
  lia.
Defined.

Lemma plot_every_hundredth_chunk_witness :
  runs_through toy_config /\
  num_batches toy_config = inr 2 /\
  let evs := @epoch_events toy_engine toy_config 2 toy_state 1 in
  length (runs evs) = 2 /\
  plots evs
  = plots_due 0 (loss_list (@state_at_epoch toy_engine toy_config 2 toy_state 1))
      (runs evs).
Proof.
  split; [exact toy_config_runs_through|].
  split; [reflexivity|].
  destruct (@plot_every_hundredth_chunk toy_engine toy_config 2 toy_state 1
              toy_config_runs_through eq_refl) as (Hl & Hp & _).
  split; [exact Hl | exact Hp].
Defined.

(** On the small configuration: two chunks per epoch, one visualizer
    call per epoch, made after the first chunk. *)
Example toy_epoch_plots_once :
  map (fun ev => match ev with
                 | EvNewData _ => 0 | EvSessRun _ => 1 | EvStep _ _ => 2
                 | EvPlot _ _ _ _ => 3
                 end)
      (@epoch_events toy_engine toy_config 2 toy_state 1)
  = [0; 1; 2; 3; 1].
Proof. vm_compute. reflexivity. Qed.

(** * The classifier head and the loss *)

Section Head.

Context {E : Engine}.

(** C9. Classifier head: at every timestep of a chunk the prediction is
    the softmax of one affine map, with the [W2] and [b2] the variables
    hold during that run, applied to the hidden output of the top layer
    of the stack at that timestep and to nothing else; each row of a
    prediction has [num_classes] entries. *)
Theorem classifier_reads_top_layer (cfg : Config) (v : Vars) (batchX : Grid)
  (init_state : Tensor4) :
  1 <= num_layers cfg ->
  length (nth 0 (var_b2 v) []) = num_classes cfg ->
  predictions_series cfg v batchX init_state
  = map (fun t =>
           softmax (affine cfg (var_W2 v) (var_b2 v)
                      (hidden_output cfg v batchX init_state (num_layers cfg - 1) t)))
        (seq 0 (truncated_backprop_length cfg)) /\
  Forall (Forall (fun row => length row = num_classes cfg))
    (predictions_series cfg v batchX init_state).
Proof.
  intros HL Hb2. split.
  - unfold predictions_series, logits_series.
    rewrite states_series_steps, !map_map.
    apply map_ext. intros t.
    now rewrite multi_rnn_cell_top by exact HL.
  - unfold predictions_series, logits_series. rewrite map_map.
    apply Forall_forall. intros p Hp.
    apply in_map_iff in Hp. destruct Hp as (state & <- & _).
    unfold softmax. apply Forall_forall. intros row Hrow.
    apply in_map_iff in Hrow. destruct Hrow as (r0 & <- & Hr0).
    rewrite softmax_row_length.
    pose proof (affine_widths cfg (var_W2 v) (var_b2 v) state Hb2) as Hw.
    rewrite Forall_forall in Hw. now apply Hw.
Qed.






(** The logits and the labels of a chunk have one row per batch row. *)
Lemma chunk_logits_rows (cfg : Config) (v : Vars) (batchX : Grid) (a : Tensor4) :
  (forall v i x s, length (h (lstm_step v i x s)) = length x) ->
  length (logits_series cfg v batchX a) = truncated_backprop_length cfg /\
  Forall (fun lg => length lg = length batchX) (logits_series cfg v batchX a).
Proof.
  intros Hrows. unfold logits_series. rewrite states_series_steps, map_map.
  split; [now rewrite length_map, length_seq|].
  apply Forall_forall. intros lg Hlg.
  apply in_map_iff in Hlg. destruct Hlg as (t & <- & Ht). apply in_seq in Ht.
  rewrite affine_rows, multi_rnn_cell_rows by exact Hrows.
  unfold rnn_inputs. rewrite nth_map_seq by lia. now rewrite length_map.
Qed.




End Head.

Lemma classifier_reads_top_layer_witness :
  1 <= num_layers toy_config /\
  @predictions_series toy_engine toy_config 0 toy_batch []
  = map (fun t =>
           @softmax toy_engine
             (@affine toy_engine toy_config (@var_W2 toy_engine 0)
                (@var_b2 toy_engine 0)
                (@hidden_output toy_engine toy_config 0 toy_batch []
                   (num_layers toy_config - 1) t)))
        (seq 0 (truncated_backprop_length toy_config)).
Proof.
  split; [vm_compute; lia|].
  apply (@classifier_reads_top_layer toy_engine toy_config 0 toy_batch []);
    [vm_compute; lia | reflexivity].
Defined.



(** With 101 chunks in the epoch the visualizer is called twice, after
    chunk 0 and after chunk 100, with 1 and 101 losses in the history. *)
Example long_epoch_plots_twice :
  map (fun ev => match ev with
                 | EvPlot ll _ _ _ => length ll
                 | _ => 0
                 end)
      (plots (@epoch_events toy_engine long_config 101 toy_state 0))
  = [1; 101].
Proof. vm_compute. reflexivity. Qed.

(** * Further facts about the script *)

(** ** Line 13 and the generator *)

Section Startup.

Context {E : Engine}.

(** X1. A zero batch size or a zero chunk length stops the script at
    line 13 with [ZeroDivisionError]: nothing is drawn, run or printed. *)
Theorem main_zero_division (cfg : Config) (st : LoopState) :
  batch_size cfg = 0 \/ truncated_backprop_length cfg = 0 ->
  main cfg st = mkOutcome (inl ZeroDivisionError) st [].
Proof.
  intros Hz.
  assert (Hn : num_batches cfg = inl ZeroDivisionError).
  { unfold num_batches, floordiv.
    destruct (batch_size cfg =? 0) eqn:Hb; [reflexivity|].
    destruct Hz as [Hz|Hz].
    - apply Nat.eqb_neq in Hb. contradiction.
    - cbn. now rewrite Hz. }
  unfold main, bind, lift. now rewrite Hn.
Qed.

(** X2. [generateData] raises exactly when the batch size is zero or does
    not divide the series length, and what it raises is [ValueError]. *)
Theorem generateData_raises_iff (cfg : Config) (st : LoopState) :
  (exists e, value (generateData cfg st) = inl e) <->
  (batch_size cfg = 0 \/ total_series_length cfg mod batch_size cfg <> 0).
Proof.
  split.
  - intros [e He].
    destruct (Nat.eq_dec (batch_size cfg) 0) as [Hb|Hb]; [now left|].
    destruct (Nat.eq_dec (total_series_length cfg mod batch_size cfg) 0) as [Hm|Hm];
      [|now right].
    rewrite generateData_ok in He by assumption. discriminate.
  - intros Hbad. exists ValueError.
    destruct (Nat.eq_dec (batch_size cfg) 0) as [Hb|Hb].
    + unfold generateData, bind, random_choice, lift, reshape. cbn.
      rewrite Hb. reflexivity.
    + destruct Hbad as [Hbad|Hbad]; [contradiction|].
      now rewrite generateData_error.
Qed.

(** X3. When [generateData] returns, both grids have [batch_size] rows of
    [row_length] entries each, and together the rows hold the whole
    series. *)
Theorem generateData_shape (cfg : Config) (st : LoopState) :
  batch_size cfg <> 0 ->
  total_series_length cfg mod batch_size cfg = 0 ->
  exists x y,
    value (generateData cfg st) = inr (x, y) /\
    length x = batch_size cfg /\ length y = batch_size cfg /\
    Forall (fun row => length row = row_length cfg) x /\
    Forall (fun row => length row = row_length cfg) y /\
    batch_size cfg * row_length cfg = total_series_length cfg.
Proof.
  intros Hb Hm.
  exists (fst (epoch_grids cfg st)), (snd (epoch_grids cfg st)).
  pose proof (@div_exact_mul _ _ Hb Hm) as Hlen. fold (row_length cfg) in Hlen.
  split; [rewrite generateData_ok by assumption; now destruct (epoch_grids cfg st)|].
  unfold epoch_grids. cbn [fst snd].
  rewrite !rows_length.
  repeat split; try apply rows_widths; try lia.
  - now rewrite drawn_length.
  - now rewrite echo_of_length, drawn_length.
Qed.

End Startup.

Lemma main_zero_division_witness :
  batch_size (mkConfig 2 60 5 1 2 3 0 2) = 0 /\
  @main toy_engine (mkConfig 2 60 5 1 2 3 0 2) toy_state
  = mkOutcome (inl ZeroDivisionError) toy_state [].
Proof.
  split; [reflexivity|].
  apply (@main_zero_division toy_engine (mkConfig 2 60 5 1 2 3 0 2) toy_state).
  left. reflexivity.
Defined.

Lemma generateData_shape_witness :
  batch_size toy_config <> 0 /\
  total_series_length toy_config mod batch_size toy_config = 0 /\
  exists x y,
    value (@generateData toy_engine toy_config toy_state) = inr (x, y) /\
    length x = batch_size toy_config /\ length y = batch_size toy_config /\
    Forall (fun row => length row = row_length toy_config) x /\
    Forall (fun row => length row = row_length toy_config) y /\
    batch_size toy_config * row_length toy_config = total_series_length toy_config.
Proof.
  split; [discriminate|].
  split; [reflexivity|].
  apply (@generateData_shape toy_engine toy_config toy_state);
    [discriminate | reflexivity].
Defined.

(** ** What the generator and the slicer hand to the session *)

Section Bits.

Lemma Forall_firstn_keep (A : Type) (P : A -> Prop) (k : nat) (l : list A) :
  Forall P l -> Forall P (firstn k l).
Proof.
  revert l; induction k as [|k IH]; intros l Hl; [constructor|].
  destruct Hl as [|a l Ha Hl]; cbn; constructor; auto.
Qed.

Lemma Forall_skipn_keep (A : Type) (P : A -> Prop) (k : nat) (l : list A) :
  Forall P l -> Forall P (skipn k l).
Proof.
  revert l; induction k as [|k IH]; intros l Hl; [exact Hl|].
  destruct Hl as [|a l Ha Hl]; cbn; [constructor|auto].
Qed.

Lemma rows_Forall (P : Z -> Prop) (k r : nat) (a : list Z) :
  Forall P a -> Forall (Forall P) (rows k r a).
Proof.
  revert a; induction k as [|k IH]; intros a Ha; cbn; constructor.
  - now apply Forall_firstn_keep.
  - apply IH. now apply Forall_skipn_keep.
Qed.

Lemma col_slice_Forall (P : Z -> Prop) (g : Grid) (s e : nat) :
  Forall (Forall P) g -> Forall (Forall P) (col_slice g s e).
Proof.
  intros Hg. unfold col_slice. apply Forall_forall. intros row Hrow.
  apply in_map_iff in Hrow. destruct Hrow as (row0 & <- & Hin).
  rewrite Forall_forall in Hg.
  apply Forall_firstn_keep, Forall_skipn_keep. now apply Hg.
Qed.

Lemma np_roll_Forall (P : Z -> Prop) (a : list Z) (s : nat) :
  Forall P a -> Forall P (np_roll a s).
Proof.
  intros Ha. unfold np_roll.
  destruct (_ mod _ =? 0); [exact Ha|].
  apply Forall_app. split.
  - now apply Forall_skipn_keep.
  - now apply Forall_firstn_keep.
Qed.

Lemma echo_of_bits (k : nat) (x : list Z) :
  Forall is_bit x -> Forall is_bit (echo_of k x).
Proof.
  intros Hx. unfold echo_of, assign_zero_prefix.
  apply Forall_app. split.
  - apply Forall_forall. intros z Hz. apply repeat_spec in Hz. now left.
  - now apply Forall_skipn_keep, np_roll_Forall.
Qed.

Lemma entry_col_slice (g : Grid) (s e b t : nat) :
  b < length g -> t < e - s ->
  entry (col_slice g s e) b t = entry g b (s + t).
Proof.
  intros Hb Ht. unfold entry, col_slice.
  rewrite (nth_map_in (fun row => firstn (e - s) (skipn s row)) g [] []) by exact Hb.
  rewrite nth_firstn_lt by exact Ht.
  apply nth_skipn_shift.
Qed.

(** X4. Entry [i] of the rolled array is entry [i - shift] of the array,
    counted around its end, for any shift, also one larger than the
    array; the length is kept. *)
Theorem np_roll_wraps (a : list Z) (s i : nat) :
  i < length a ->
  length (np_roll a s) = length a /\
  nth i (np_roll a s) 0%Z
  = nth ((i + length a - s mod length a) mod length a) a 0%Z.
Proof.
  intros Hi. split; [apply np_roll_length|].
  unfold np_roll.
  assert (Hn : (length a =? 0) = false) by (apply Nat.eqb_neq; lia).
  rewrite Hn.
  assert (Ho : s mod length a < length a) by (apply Nat.mod_upper_bound; lia).
  set (o := s mod length a) in *.
  destruct (o =? 0) eqn:Hz.
  - apply Nat.eqb_eq in Hz. rewrite Hz, Nat.sub_0_r.
    f_equal.
    apply Nat.mod_unique with (q := 1); lia.
  - apply Nat.eqb_neq in Hz.
    destruct (Nat.lt_ge_cases i o) as [Hlt|Hge].
    + rewrite app_nth1 by (rewrite length_skipn; lia).
      rewrite nth_skipn_shift. f_equal.
      rewrite Nat.mod_small by lia. lia.
    + rewrite app_nth2 by (rewrite length_skipn; lia).
      rewrite length_skipn.
      rewrite nth_firstn_lt by lia.
      f_equal.
      apply Nat.mod_unique with (q := 1); lia.
Qed.

End Bits.

Lemma np_roll_wraps_witness :
  1 < length [1; 0; 0; 1; 1]%Z /\
  nth 1 (np_roll [1; 0; 0; 1; 1]%Z 13) 0%Z
  = nth ((1 + length [1; 0; 0; 1; 1]%Z - 13 mod length [1; 0; 0; 1; 1]%Z)
         mod length [1; 0; 0; 1; 1]%Z) [1; 0; 0; 1; 1]%Z 0%Z.
Proof.
  split; [cbn; lia|].
  apply (@np_roll_wraps [1; 0; 0; 1; 1]%Z 13 1). cbn. lia.
Defined.

Section Feeds.

Context {E : Engine}.

Lemma drawn_bits (cfg : Config) (st : LoopState) : Forall is_bit (drawn cfg st).
Proof.
  unfold drawn. apply Forall_forall. intros z Hz.
  apply in_map_iff in Hz. destruct Hz as (i & <- & _).
  destruct (rng st i); [now right | now left].
Qed.

(** X5. Every entry of the two grids [generateData] returns is 0 or 1. *)
Theorem generateData_bits (cfg : Config) (st : LoopState) :
  batch_size cfg <> 0 ->
  total_series_length cfg mod batch_size cfg = 0 ->
  exists x y,
    value (generateData cfg st) = inr (x, y) /\
    Forall (Forall is_bit) x /\ Forall (Forall is_bit) y.
Proof.
  intros Hb Hm.
  exists (fst (epoch_grids cfg st)), (snd (epoch_grids cfg st)).
  split; [rewrite generateData_ok by assumption; now destruct (epoch_grids cfg st)|].
  unfold epoch_grids. cbn [fst snd].
  split; apply rows_Forall.
  - apply drawn_bits.
  - apply echo_of_bits, drawn_bits.
Qed.

End Feeds.

Lemma generateData_bits_witness :
  batch_size toy_config <> 0 /\
  total_series_length toy_config mod batch_size toy_config = 0 /\
  exists x y,
    value (@generateData toy_engine toy_config toy_state) = inr (x, y) /\
    Forall (Forall is_bit) x /\ Forall (Forall is_bit) y.
Proof.
  split; [discriminate|].
  split; [reflexivity|].
  apply (@generateData_bits toy_engine toy_config toy_state);
    [discriminate | reflexivity].
Defined.

Section ChunkLabels.

Context {E : Engine}.

(** X6. Inside a chunk, from timestep [echo_step] on, the label of a row
    is the input the same chunk has in that row [echo_step] timesteps
    earlier. *)
Theorem chunk_labels_echo_inputs (cfg : Config) (n : nat) (st : LoopState)
  (e k : nat) (r : RunRecord) (b t : nat) :
  runs_through cfg ->
  num_batches cfg = inr n ->
  nth_error (runs (epoch_events cfg n st e)) k = Some r ->
  b < batch_size cfg ->
  echo_step cfg <= t ->
  t < truncated_backprop_length cfg ->
  entry (feed_batchY r) b t = entry (feed_batchX r) b (t - echo_step cfg).
Proof.
  intros Hc Hn Hk Hb Hlag Ht.
  destruct (epoch_run_at _ _ _ _ Hc Hk) as (Hkn & Hx & Hy).
  destruct (num_batches_inv cfg Hn) as (Hb0 & Ht0 & Hnn).
  destruct Hc as (_ & _ & Hm & _).
  pose proof (@div_exact_mul _ _ Hb0 Hm) as Hlen. fold (row_length cfg) in Hlen.
  pose proof (Nat.div_mod (row_length cfg) (truncated_backprop_length cfg) Ht0) as Hd.
  rewrite <- Hnn in Hd.
  set (T := truncated_backprop_length cfg) in *.
  assert (Hend : k * T + T <= row_length cfg) by nia.
  rewrite Hx, Hy. unfold epoch_grids. cbn [fst snd].
  rewrite !entry_col_slice by (rewrite ?rows_length; lia).
  rewrite !rows_entry by lia.
  rewrite echo_of_nth by (rewrite drawn_length; nia).
  assert (Hge : (b * row_length cfg + (k * T + t) <? echo_step cfg) = false)
    by (apply Nat.ltb_ge; lia).
  rewrite Hge. f_equal. lia.
Qed.

(** X7. The labels of the first [echo_step] timesteps of a chunk are the
    inputs of the last [echo_step] timesteps of the chunk before it, row
    by row: what the carried state has to remember. *)
Theorem chunk_labels_reach_back (cfg : Config) (n : nat) (st : LoopState)
  (e k : nat) (r r' : RunRecord) (b t : nat) :
  runs_through cfg ->
  num_batches cfg = inr n ->
  nth_error (runs (epoch_events cfg n st e)) k = Some r ->
  nth_error (runs (epoch_events cfg n st e)) (S k) = Some r' ->
  b < batch_size cfg ->
  t < echo_step cfg ->
  echo_step cfg <= truncated_backprop_length cfg ->
  entry (feed_batchY r') b t
  = entry (feed_batchX r) b (truncated_backprop_length cfg - echo_step cfg + t).
Proof.
  intros Hc Hn Hk Hk' Hb Ht Hlag.
  destruct (epoch_run_at _ _ _ _ Hc Hk) as (_ & Hx & _).
  destruct (epoch_run_at _ _ _ _ Hc Hk') as (Hkn & _ & Hy).
  destruct (num_batches_inv cfg Hn) as (Hb0 & Ht0 & Hnn).
  destruct Hc as (_ & _ & Hm & _).
  pose proof (@div_exact_mul _ _ Hb0 Hm) as Hlen. fold (row_length cfg) in Hlen.
  pose proof (Nat.div_mod (row_length cfg) (truncated_backprop_length cfg) Ht0) as Hd.
  rewrite <- Hnn in Hd.
  set (T := truncated_backprop_length cfg) in *.
  assert (Hend : S k * T + T <= row_length cfg) by nia.
  assert (HSk : S k * T = T + k * T) by reflexivity.
  rewrite Hx, Hy. unfold epoch_grids. cbn [fst snd].
  rewrite !entry_col_slice by (rewrite ?rows_length; lia).
  rewrite !rows_entry by lia.
  rewrite echo_of_nth by (rewrite drawn_length; nia).
  assert (Hge : (b * row_length cfg + (S k * T + t) <? echo_step cfg) = false)
    by (apply Nat.ltb_ge; lia).
  rewrite Hge. f_equal. lia.
Qed.

Lemma main_run_in_epoch (cfg : Config) (st : LoopState) (n : nat) (r : RunRecord) :
  runs_through cfg ->
  num_batches cfg = inr n ->
  In r (runs (events (main cfg st))) ->
  exists e k,
    nth_error
      (runs (epoch_events cfg n
               (mkLoopState (rng st) (session st) [] (_current_state st)) e)) k
    = Some r.
Proof.
  intros Hc Hn Hin.
  destruct (main_completes st Hn Hc) as (_ & _ & Hev).
  rewrite Hev, runs_flat_map in Hin.
  apply in_flat_map in Hin. destruct Hin as (e & _ & Hin).
  apply In_nth_error in Hin. destruct Hin as [k Hk].
  now exists e, k.
Qed.

(** X8. Every chunk fed to the session holds only 0 and 1, so every label
    is a class the classifier has: the cross-entropy is never asked for a
    class outside [0, num_classes). *)
Theorem fed_labels_are_classes (cfg : Config) (st : LoopState) (n : nat)
  (r : RunRecord) :
  runs_through cfg ->
  num_batches cfg = inr n ->
  In r (runs (events (main cfg st))) ->
  Forall (Forall is_bit) (feed_batchX r) /\
  Forall (Forall (fun z => (0 <= z < Z.of_nat (num_classes cfg))%Z)) (feed_batchY r).
Proof.
  intros Hc Hn Hin.
  destruct (@main_run_in_epoch cfg st n r Hc Hn Hin) as (e & k & Hk).
  destruct (epoch_run_at _ _ _ _ Hc Hk) as (_ & Hx & Hy).
  destruct Hc as (_ & _ & _ & _ & _ & Hcl).
  rewrite Hx, Hy. unfold epoch_grids. cbn [fst snd].
  split.
  - apply col_slice_Forall, rows_Forall, drawn_bits.
  - apply col_slice_Forall, rows_Forall.
    eapply Forall_impl; [|apply echo_of_bits, drawn_bits].
    intros z [-> | ->]; lia.
Qed.

End ChunkLabels.

Lemma chunk_labels_echo_inputs_witness :
  runs_through toy_config /\
  exists r,
    nth_error (runs (@epoch_events toy_engine toy_config 2 toy_state 1)) 1 = Some r /\
    entry (feed_batchY r) 2 4 = entry (feed_batchX r) 2 (4 - echo_step toy_config).
Proof.
  split; [exact toy_config_runs_through|].
  destruct (nth_error (runs (@epoch_events toy_engine toy_config 2 toy_state 1)) 1)
    as [r|] eqn:Hr; [|vm_compute in Hr; discriminate].
  exists r. split; [reflexivity|].
  apply (@chunk_labels_echo_inputs toy_engine toy_config 2 toy_state 1 1 r 2 4
           toy_config_runs_through eq_refl Hr); vm_compute; lia.
Defined.

Lemma chunk_labels_reach_back_witness :
  runs_through toy_config /\
  exists r r',
    nth_error (runs (@epoch_events toy_engine toy_config 2 toy_state 1)) 0 = Some r /\
    nth_error (runs (@epoch_events toy_engine toy_config 2 toy_state 1)) 1 = Some r' /\
    entry (feed_batchY r') 2 1
    = entry (feed_batchX r) 2
        (truncated_backprop_length toy_config - echo_step toy_config + 1).
Proof.
  split; [exact toy_config_runs_through|].
  destruct (nth_error (runs (@epoch_events toy_engine toy_config 2 toy_state 1)) 0)
    as [r|] eqn:Hr; [|vm_compute in Hr; discriminate].
  destruct (nth_error (runs (@epoch_events toy_engine toy_config 2 toy_state 1)) 1)
    as [r'|] eqn:Hr'; [|vm_compute in Hr'; discriminate].
  exists r, r'. split; [reflexivity|]. split; [reflexivity|].
  apply (@chunk_labels_reach_back toy_engine toy_config 2 toy_state 1 0 r r' 2 1
           toy_config_runs_through eq_refl Hr Hr'); vm_compute; lia.
Defined.

Lemma fed_labels_are_classes_witness :
  runs_through toy_config /\
  num_batches toy_config = inr 2 /\
  forall r, In r (runs (events (@main toy_engine toy_config toy_state))) ->
    Forall (Forall is_bit) (feed_batchX r) /\
    Forall (Forall (fun z => (0 <= z < Z.of_nat (num_classes toy_config))%Z))
      (feed_batchY r).
Proof.
  split; [exact toy_config_runs_through|].
  split; [reflexivity|].
  intros r Hr.
  exact (@fed_labels_are_classes toy_engine toy_config toy_state 2 r
           toy_config_runs_through eq_refl Hr).
Defined.

(** ** What a whole run leaves behind *)

Section WholeRun.

Context {E : Engine}.

Lemma trained_in_order_app (cfg : Config) (v : Vars) (l1 l2 : list RunRecord) :
  trained_in_order cfg v l1 ->
  trained_in_order cfg (fold_left train_on l1 v) l2 ->
  trained_in_order cfg v (l1 ++ l2).
Proof.
  revert v; induction l1 as [|r l1 IH]; intros v H1 H2; [exact H2|].
  destruct H1 as [Hr H1]. cbn. split; [exact Hr|]. now apply IH.
Qed.

(** The chunk loop: losses appended, variables stepped, run after run. *)
Lemma chunk_loop_final (cfg : Config) (x y : Grid) (n s : nat) (st : LoopState) :
  5 <= batch_size cfg ->
  let o := for_each (seq s n) (chunk_body cfg x y) st in
  loss_list (final o) = loss_list st ++ map fetched_total_loss (runs (events o)) /\
  session (final o) = fold_left train_on (runs (events o)) (session st) /\
  trained_in_order cfg (session st) (runs (events o)).
Proof.
  intros Hb. revert s st.
  induction n as [|n IH]; intros s st.
  - cbn. rewrite app_nil_r. auto.
  - cbn [seq].
    rewrite for_each_cons_ok by (now rewrite chunk_body_ok).
    rewrite chunk_body_ok by exact Hb. cbn [value final events].
    destruct (IH (S s) (chunk_next cfg x y s st)) as (Hl & Hs & Ht).
    rewrite runs_app, runs_chunk_events. cbn [app map fold_left].
    split; [|split].
    + rewrite Hl. cbn [chunk_next loss_list]. now rewrite <- app_assoc.
    + exact Hs.
    + split; [cbn; auto | exact Ht].
Qed.

Lemma epoch_body_final (cfg : Config) (n e : nat) (st : LoopState) :
  runs_through cfg ->
  let o := epoch_body cfg n e st in
  loss_list (final o) = loss_list st ++ map fetched_total_loss (runs (events o)) /\
  session (final o) = fold_left train_on (runs (events o)) (session st) /\
  trained_in_order cfg (session st) (runs (events o)).
Proof.
  intros Hc. cbn zeta. rewrite epoch_body_ok by exact Hc. cbn [value final events].
  change (runs (EvNewData e :: ?l)) with (runs l).
  destruct Hc as (_ & Hb & _).
  apply (chunk_loop_final cfg (fst (epoch_grids cfg st)) (snd (epoch_grids cfg st))
           n 0 (epoch_start cfg st) Hb).
Qed.

Lemma epoch_loop_final (cfg : Config) (n m s : nat) (st : LoopState) :
  runs_through cfg ->
  let o := for_each (seq s m) (epoch_body cfg n) st in
  loss_list (final o) = loss_list st ++ map fetched_total_loss (runs (events o)) /\
  session (final o) = fold_left train_on (runs (events o)) (session st) /\
  trained_in_order cfg (session st) (runs (events o)).
Proof.
  intros Hc. revert s st.
  induction m as [|m IH]; intros s st.
  - cbn. rewrite app_nil_r. auto.
  - cbn [seq].
    rewrite for_each_cons_ok by (now apply epoch_body_value).
    cbn [value final events].
    destruct (epoch_body_final n s st Hc) as (Hl1 & Hs1 & Ht1).
    destruct (IH (S s) (final (epoch_body cfg n s st))) as (Hl & Hs & Ht).
    rewrite runs_app, map_app, fold_left_app.
    split; [|split].
    + now rewrite Hl, Hl1, <- app_assoc.
    + now rewrite Hs, Hs1.
    + apply trained_in_order_app; [exact Ht1|]. now rewrite <- Hs1.
Qed.

(** X9. After a run that raises nothing the loss history holds the loss
    fetched by every session run, in the order of the runs and through
    all epochs: one per chunk, [num_epochs * num_batches] in all. *)
Theorem loss_history_complete (cfg : Config) (st : LoopState) (n : nat) :
  runs_through cfg ->
  num_batches cfg = inr n ->
  loss_list (final (main cfg st))
  = map fetched_total_loss (runs (events (main cfg st))) /\
  length (loss_list (final (main cfg st))) = num_epochs cfg * n.
Proof.
  intros Hc Hn.
  destruct (main_completes st Hn Hc) as (_ & Hlen & _).
  rewrite main_start with (n := n) in * by exact Hn.
  destruct (epoch_loop_final n (num_epochs cfg) 0
              (mkLoopState (rng st) (session st) [] (_current_state st)) Hc)
    as (Hl & _ & _).
  cbn [loss_list app] in Hl.
  split; [exact Hl|]. now rewrite Hl, length_map.
Qed.

(** X10. The variables are never set back: every session run computes
    its loss, state and predictions on the variables left by all the runs
    before it, those of earlier epochs too, and the run ends with the
    variables stepped once per run. *)
Theorem variables_trained_in_order (cfg : Config) (st : LoopState) (n : nat) :
  runs_through cfg ->
  num_batches cfg = inr n ->
  trained_in_order cfg (session st) (runs (events (main cfg st))) /\
  session (final (main cfg st))
  = fold_left train_on (runs (events (main cfg st))) (session st).
Proof.
  intros Hc Hn.
  rewrite main_start with (n := n) by exact Hn.
  destruct (epoch_loop_final n (num_epochs cfg) 0
              (mkLoopState (rng st) (session st) [] (_current_state st)) Hc)
    as (_ & Hs & Ht).
  split; [exact Ht | exact Hs].
Qed.

End WholeRun.

Lemma loss_history_complete_witness :
  runs_through toy_config /\
  num_batches toy_config = inr 2 /\
  loss_list (final (@main toy_engine toy_config toy_state))
  = map fetched_total_loss (runs (events (@main toy_engine toy_config toy_state))) /\
  length (loss_list (final (@main toy_engine toy_config toy_state)))
  = num_epochs toy_config * 2.
Proof.
  split; [exact toy_config_runs_through|].
  split; [reflexivity|].
  exact (@loss_history_complete toy_engine toy_config toy_state 2
           toy_config_runs_through eq_refl).
Defined.

Lemma variables_trained_in_order_witness :
  runs_through toy_config /\
  num_batches toy_config = inr 2 /\
  @trained_in_order toy_engine toy_config (session toy_state)
    (runs (events (@main toy_engine toy_config toy_state))) /\
  session (final (@main toy_engine toy_config toy_state))
  = fold_left (@train_on toy_engine)
      (runs (events (@main toy_engine toy_config toy_state))) (session toy_state).
Proof.
  split; [exact toy_config_runs_through|].
  split; [reflexivity|].
  exact (@variables_trained_in_order toy_engine toy_config toy_state 2
           toy_config_runs_through eq_refl).
Defined.

(** ** Runs that end early *)

Section EarlyEnds.

Context {E : Engine}.

Lemma plot_error (cfg : Config) (ll : list scalar) (ps : list Tensor2) (bx by_ : Grid)
  (st : LoopState) :
  batch_size cfg < 5 ->
  plot cfg ll ps bx by_ st = mkOutcome (inl IndexError) st [EvPlot ll ps bx by_].
Proof.
  intros Hb. unfold plot.
  destruct (batch_size cfg) as [|[|[|[|[|b]]]]]; try lia; reflexivity.
Qed.

Lemma chunk_body_plot_error (cfg : Config) (x y : Grid) (k : nat) (st : LoopState) :
  batch_size cfg < 5 ->
  k mod 100 = 0 ->
  chunk_body cfg x y k st
  = mkOutcome (inl IndexError) (chunk_next cfg x y k st) (chunk_events cfg x y k st).
Proof.
  intros Hb Hk.
  unfold chunk_body, chunk_events, chunk_next, chunk_run, chunk_range.
  unfold bind at 1. cbn -[Nat.modulo plot].
  rewrite Hk. cbn -[plot].
  rewrite plot_error by exact Hb. reflexivity.
Qed.

Lemma epoch_body_unfold (cfg : Config) (n e : nat) (st : LoopState) :
  batch_size cfg <> 0 ->
  total_series_length cfg mod batch_size cfg = 0 ->
  epoch_body cfg n e st
  = let o := for_each (seq 0 n)
               (chunk_body cfg (fst (epoch_grids cfg st)) (snd (epoch_grids cfg st)))
               (epoch_start cfg st) in
    mkOutcome (value o) (final o) (EvNewData e :: events o).
Proof.
  intros Hb Hm.
  unfold epoch_body. unfold bind at 1.
  rewrite generateData_ok by assumption.
  cbn [value final events]. unfold bind at 1. cbn [get value final events app].
  unfold bind at 1. cbn [put value final events app].
  unfold bind at 1. cbn [emit value final events app].
  reflexivity.
Qed.

(** X11. With fewer than five batch rows the script stops in the first
    call of [plot], with [IndexError], after one session run: [plot]
    draws rows 0 to 4 whatever the batch size is.  One loss is in the
    history by then.  The network sizes are those the graph is built and
    run for. *)
Theorem narrow_batch_stops_at_first_plot (cfg : Config) (st : LoopState) (n : nat) :
  graph_builds cfg ->
  num_batches cfg = inr n ->
  0 < n ->
  num_epochs cfg <> 0 ->
  total_series_length cfg mod batch_size cfg = 0 ->
  batch_size cfg < 5 ->
  exists r,
    value (main cfg st) = inl IndexError /\
    events (main cfg st)
    = [EvNewData 0; EvSessRun r; EvStep 0 (fetched_total_loss r);
       EvPlot [fetched_total_loss r] (fetched_predictions_series r)
         (feed_batchX r) (feed_batchY r)] /\
    loss_list (final (main cfg st)) = [fetched_total_loss r].
Proof.
  intros _ Hn Hpos He Hm Hb.
  destruct (num_batches_inv cfg Hn) as (Hb0 & _ & _).
  rewrite main_start with (n := n) by exact Hn.
  destruct (num_epochs cfg) as [|m]; [contradiction|].
  destruct n as [|n']; [lia|].
  set (st1 := mkLoopState (rng st) (session st) [] (_current_state st)).
  exists (chunk_run cfg (fst (epoch_grids cfg st1)) (snd (epoch_grids cfg st1)) 0
            (epoch_start cfg st1)).
  set (x := fst (epoch_grids cfg st1)). set (y := snd (epoch_grids cfg st1)).
  assert (Hchunks :
            for_each (seq 0 (S n')) (chunk_body cfg x y) (epoch_start cfg st1)
            = mkOutcome (inl IndexError)
                (chunk_next cfg x y 0 (epoch_start cfg st1))
                (chunk_events cfg x y 0 (epoch_start cfg st1))).
  { cbn [seq for_each]. unfold bind.
    now rewrite chunk_body_plot_error by (auto; reflexivity). }
  assert (Hepoch :
            epoch_body cfg (S n') 0 st1
            = mkOutcome (inl IndexError)
                (chunk_next cfg x y 0 (epoch_start cfg st1))
                (EvNewData 0 :: chunk_events cfg x y 0 (epoch_start cfg st1))).
  { rewrite epoch_body_unfold by assumption. cbv zeta.
    fold x y. now rewrite Hchunks. }
  cbn [seq for_each]. unfold bind. rewrite Hepoch.
  cbn [value final events]. unfold chunk_events, chunk_next.
  cbn -[chunk_run]. auto.
Qed.

(** The epoch loop when an epoch has no chunk. *)
Lemma empty_epoch_loop (cfg : Config) (m s : nat) (st : LoopState) :
  batch_size cfg <> 0 ->
  total_series_length cfg mod batch_size cfg = 0 ->
  let o := for_each (seq s m) (epoch_body cfg 0) st in
  value o = inr tt /\
  events o = map EvNewData (seq s m) /\
  loss_list (final o) = loss_list st /\
  session (final o) = session st.
Proof.
  intros Hb Hm. revert s st.
  induction m as [|m IH]; intros s st.
  - cbn. auto.
  - cbn [seq].
    rewrite for_each_cons_ok by (now rewrite epoch_body_unfold).
    rewrite epoch_body_unfold by assumption.
    cbn [seq for_each ret value final events].
    destruct (IH (S s) (epoch_start cfg st)) as (Hv & Hev & Hl & Hs).
    rewrite Hev, Hl, Hs. cbn. auto.
Qed.

(** X12. When the rows are shorter than one chunk ([num_batches] is 0),
    the script raises nothing for any batch size that divides the series:
    each epoch draws its data and prints its line, no session run is made,
    [plot] is never called, and loss history and variables stay as they
    were.  The network sizes are those the graph is built for. *)
Theorem no_chunk_no_training (cfg : Config) (st : LoopState) :
  graph_builds cfg ->
  num_batches cfg = inr 0 ->
  total_series_length cfg mod batch_size cfg = 0 ->
  value (main cfg st) = inr tt /\
  events (main cfg st) = map EvNewData (seq 0 (num_epochs cfg)) /\
  loss_list (final (main cfg st)) = [] /\
  session (final (main cfg st)) = session st.
Proof.
  intros _ Hn Hm.
  destruct (num_batches_inv cfg Hn) as (Hb0 & _ & _).
  rewrite main_start with (n := 0) by exact Hn.
  apply (empty_epoch_loop cfg (num_epochs cfg) 0
           (mkLoopState (rng st) (session st) [] (_current_state st)) Hb0 Hm).
Qed.

End EarlyEnds.

Lemma narrow_graph_builds : graph_builds narrow_config.
Proof. repeat split; vm_compute; lia. Defined.

Lemma short_graph_builds : graph_builds short_config.
Proof. repeat split; vm_compute; lia. Defined.

Lemma narrow_batch_stops_at_first_plot_witness :
  graph_builds narrow_config /\
  num_batches narrow_config = inr 4 /\
  batch_size narrow_config < 5 /\
  exists r,
    value (@main toy_engine narrow_config toy_state) = inl IndexError /\
    events (@main toy_engine narrow_config toy_state)
    = [EvNewData 0; EvSessRun r; EvStep 0 (fetched_total_loss r);
       EvPlot [fetched_total_loss r] (fetched_predictions_series r)
         (feed_batchX r) (feed_batchY r)] /\
    loss_list (final (@main toy_engine narrow_config toy_state))
    = [fetched_total_loss r].
Proof.
  split; [exact narrow_graph_builds|].
  split; [reflexivity|].
  split; [vm_compute; lia|].
  apply (@narrow_batch_stops_at_first_plot toy_engine narrow_config toy_state 4).
  - exact narrow_graph_builds.
  - reflexivity.
  - lia.
  - discriminate.
  - reflexivity.
  - vm_compute; lia.
Defined.

Lemma no_chunk_no_training_witness :
  graph_builds short_config /\
  num_batches short_config = inr 0 /\
  total_series_length short_config mod batch_size short_config = 0 /\
  value (@main toy_engine short_config toy_state) = inr tt /\
  events (@main toy_engine short_config toy_state)
  = map (@EvNewData toy_engine) (seq 0 (num_epochs short_config)) /\
  loss_list (final (@main toy_engine short_config toy_state)) = [] /\
  session (final (@main toy_engine short_config toy_state)) = session toy_state.
Proof.
  split; [exact short_graph_builds|].
  split; [reflexivity|].
  split; [reflexivity|].
  apply (@no_chunk_no_training toy_engine short_config toy_state);
    [exact short_graph_builds | reflexivity | reflexivity].
Defined.

(** ** The recurrent state across chunks *)

Section Carried.

Context {E : Engine}.

Lemma dynamic_rnn_app (cfg : Config) (v : Vars) (l1 l2 : list Tensor2)
  (s : list CellState) :
  dynamic_rnn cfg v (l1 ++ l2) s
  = (fst (dynamic_rnn cfg v l1 s)
     ++ fst (dynamic_rnn cfg v l2 (snd (dynamic_rnn cfg v l1 s))),
     snd (dynamic_rnn cfg v l2 (snd (dynamic_rnn cfg v l1 s)))).
Proof.
  revert s; induction l1 as [|inp l1 IH]; intros s.
  - cbn. now destruct (dynamic_rnn cfg v l2 s).
  - cbn. destruct (multi_rnn_cell_call cfg v inp s) as [out s1].
    rewrite IH.
    now destruct (dynamic_rnn cfg v l1 s1).
Qed.

Lemma dynamic_rnn_layers (cfg cfg' : Config) (v : Vars) (l : list Tensor2)
  (s : list CellState) :
  num_layers cfg = num_layers cfg' ->
  dynamic_rnn cfg v l s = dynamic_rnn cfg' v l s.
Proof.
  intros HL. revert s; induction l as [|inp l IH]; intros s; [reflexivity|].
  cbn. unfold multi_rnn_cell_call. rewrite HL.
  destruct (fold_left _ _ _) as [out s1]. now rewrite IH.
Qed.

Lemma map_seq_offset (A : Type) (g : nat -> A) (a n s : nat) :
  map g (seq (a + s) n) = map (fun t => g (a + t)) (seq s n).
Proof.
  revert s; induction n as [|n IH]; intros s; [reflexivity|].
  cbn [seq map]. f_equal.
  rewrite <- Nat.add_succ_r. apply IH.
Qed.

(** The inputs of a chunk of double length are those of its two halves. *)
Lemma rnn_inputs_double (cfg : Config) (x : Grid) (s : nat) :
  rnn_inputs (double_chunk cfg)
    (col_slice x s (s + 2 * truncated_backprop_length cfg))
  = rnn_inputs cfg (col_slice x s (s + truncated_backprop_length cfg))
    ++ rnn_inputs cfg
         (col_slice x (s + truncated_backprop_length cfg)
            (s + truncated_backprop_length cfg + truncated_backprop_length cfg)).
Proof.
  unfold rnn_inputs, double_chunk. cbn [truncated_backprop_length].
  set (T := truncated_backprop_length cfg).
  replace (2 * T) with (T + T) by lia.
  rewrite seq_app, map_app. f_equal.
  - apply map_ext_in. intros t Ht. apply in_seq in Ht.
    unfold col_slice. rewrite !map_map. apply map_ext. intros row.
    rewrite !nth_firstn_lt by lia. reflexivity.
  - replace (0 + T) with (T + 0) by lia. rewrite map_seq_offset.
    apply map_ext_in. intros t Ht. apply in_seq in Ht.
    unfold col_slice. rewrite !map_map. apply map_ext. intros row.
    rewrite !nth_firstn_lt by lia.
    rewrite !nth_skipn_shift. do 3 f_equal. lia.
Qed.

(** X13. For unchanged variables, running a chunk and then the next one
    on the state the first one returned gives the same hidden outputs,
    predictions and final state as one pass over the two chunks joined:
    feeding the fetched state back continues the recurrence. *)
Theorem carried_state_joins_chunks (cfg : Config) (v : Vars) (x : Grid) (s : nat)
  (init_state : Tensor4) :
  let T := truncated_backprop_length cfg in
  let c1 := col_slice x s (s + T) in
  let c2 := col_slice x (s + T) (s + T + T) in
  let c12 := col_slice x s (s + 2 * T) in
  let carried := feed_array (StateTuples (current_state cfg v c1 init_state)) in
  states_series (double_chunk cfg) v c12 init_state
  = states_series cfg v c1 init_state ++ states_series cfg v c2 carried /\
  predictions_series (double_chunk cfg) v c12 init_state
  = predictions_series cfg v c1 init_state ++ predictions_series cfg v c2 carried /\
  current_state (double_chunk cfg) v c12 init_state
  = current_state cfg v c2 carried.
Proof.
  intros T c1 c2 c12 carried.
  assert (Hfed : rnn_tuple_state cfg carried = current_state cfg v c1 init_state).
  { apply rnn_tuple_state_feed, current_state_length. }
  assert (Hjoin :
            dynamic_rnn (double_chunk cfg) v (rnn_inputs (double_chunk cfg) c12)
              (rnn_tuple_state (double_chunk cfg) init_state)
            = (states_series cfg v c1 init_state ++ states_series cfg v c2 carried,
               current_state cfg v c2 carried)).
  { subst c12 T. rewrite rnn_inputs_double.
    rewrite (@dynamic_rnn_layers (double_chunk cfg) cfg) by reflexivity.
    rewrite dynamic_rnn_app.
    unfold states_series, current_state. rewrite Hfed. reflexivity. }
  assert (Hs : states_series (double_chunk cfg) v c12 init_state
               = states_series cfg v c1 init_state ++ states_series cfg v c2 carried).
  { unfold states_series at 1. now rewrite Hjoin. }
  split; [exact Hs|]. split.
  - unfold predictions_series, logits_series. rewrite Hs, !map_app. reflexivity.
  - unfold current_state at 1. now rewrite Hjoin.
Qed.

Lemma nth_repeat_lt (A : Type) (a d : A) (n i : nat) :
  i < n -> nth i (repeat a n) d = a.
Proof.
  revert i; induction n as [|n IH]; intros i Hi; [lia|].
  destruct i as [|i]; [reflexivity|]. cbn. apply IH. lia.
Qed.

Lemma map_const_seq (A : Type) (a : A) (s n : nat) :
  map (fun _ => a) (seq s n) = repeat a n.
Proof.
  revert s; induction n as [|n IH]; intros s; [reflexivity|].
  cbn. now rewrite IH.
Qed.

(** The graph reads the array of zeros as one zero pair per layer. *)
Lemma rnn_tuple_state_zeros (cfg : Config) :
  rnn_tuple_state cfg
    (zeros4 (num_layers cfg) 2 (batch_size cfg) (state_size cfg))
  = repeat (mkLSTM (repeat (repeat s_zero (state_size cfg)) (batch_size cfg))
                   (repeat (repeat s_zero (state_size cfg)) (batch_size cfg)))
      (num_layers cfg).
Proof.
  unfold rnn_tuple_state, zeros4.
  rewrite <- (map_const_seq
                (mkLSTM (repeat (repeat s_zero (state_size cfg)) (batch_size cfg))
                        (repeat (repeat s_zero (state_size cfg)) (batch_size cfg)))
                0 (num_layers cfg)).
  apply map_ext_in. intros idx Hidx. apply in_seq in Hidx.
  rewrite nth_repeat_lt by lia. reflexivity.
Qed.

(** X14. In the first chunk of every epoch each layer of the stack starts
    from a cell value and a hidden value that are the zero matrix of
    shape [batch_size, state_size]. *)
Theorem first_chunk_starts_from_zero (cfg : Config) (n : nat) (st : LoopState)
  (e : nat) (r : RunRecord) :
  runs_through cfg ->
  num_batches cfg = inr n ->
  nth_error (runs (epoch_events cfg n st e)) 0 = Some r ->
  rnn_tuple_state cfg (feed_array (feed_init_state r))
  = repeat (mkLSTM (repeat (repeat s_zero (state_size cfg)) (batch_size cfg))
                   (repeat (repeat s_zero (state_size cfg)) (batch_size cfg)))
      (num_layers cfg).
Proof.
  intros Hc Hn Hr.
  destruct (epoch_summary n st e Hc) as (_ & Hch & _).
  destruct (runs (epoch_events cfg n st e)) as [|r0 rs]; [discriminate|].
  cbn in Hr. injection Hr as ->.
  destruct Hch as [Hfed _]. rewrite Hfed. cbn [feed_array].
  apply rnn_tuple_state_zeros.
Qed.

(** X15. If the cell keeps the batch dimension, every session run of the
    script fetches [truncated_backprop_length] predictions with
    [batch_size] rows each, and a state of [num_layers] tuples: the shape
    [plot] indexes and the next feed relies on. *)
Theorem fetched_shapes (cfg : Config) (st : LoopState) (n : nat) (r : RunRecord) :
  (forall v i x s, length (h (lstm_step v i x s)) = length x) ->
  runs_through cfg ->
  num_batches cfg = inr n ->
  In r (runs (events (main cfg st))) ->
  length (fetched_predictions_series r) = truncated_backprop_length cfg /\
  Forall (fun p => length p = batch_size cfg) (fetched_predictions_series r) /\
  length (fetched_current_state r) = num_layers cfg.
Proof.
  intros Hrows Hc Hn Hin.
  destruct (@main_run_in_epoch _ cfg st n r Hc Hn Hin) as (e & k & Hk).
  apply nth_error_In in Hk.
  destruct (epoch_runs_shape _ _ _ Hc Hn Hk) as ((HX & _) & _).
  destruct (epoch_summary n (mkLoopState (rng st) (session st) [] (_current_state st))
              e Hc) as (_ & _ & _ & _ & Hg).
  rewrite Forall_forall in Hg.
  destruct (Hg r Hk) as (v & _ & Hs & Hp).
  rewrite Hs, Hp.
  destruct (chunk_logits_rows cfg v (feed_batchX r)
              (feed_array (feed_init_state r)) Hrows) as [HT HB].
  unfold predictions_series.
  split; [now rewrite length_map|]. split; [|apply current_state_length].
  apply Forall_forall. intros p Hp'.
  apply in_map_iff in Hp'. destruct Hp' as (lg & <- & Hlg).
  rewrite Forall_forall in HB. unfold softmax. rewrite length_map.
  now rewrite (HB lg Hlg).
Qed.

Lemma stack_top_is_last_state (cfg : Config) (v : Vars) (inp : Tensor2)
  (s : list CellState) :
  1 <= num_layers cfg ->
  fst (multi_rnn_cell_call cfg v inp s)
  = h (last (snd (multi_rnn_cell_call cfg v inp s)) (mkLSTM [] [])).
Proof.
  intros HL. unfold multi_rnn_cell_call.
  replace (num_layers cfg) with (S (num_layers cfg - 1)) by lia.
  rewrite seq_S, fold_left_app. cbn [fold_left].
  destruct (fold_left _ _ _) as [cur ns].
  unfold stack_step, lstm_cell_call. cbn [fst snd].
  now rewrite last_last.
Qed.

Lemma dynamic_rnn_last (cfg : Config) (v : Vars) (inputs : list Tensor2)
  (s : list CellState) :
  1 <= num_layers cfg ->
  inputs <> [] ->
  last (fst (dynamic_rnn cfg v inputs s)) []
  = h (last (snd (dynamic_rnn cfg v inputs s)) (mkLSTM [] [])).
Proof.
  intros HL. revert s; induction inputs as [|inp rest IH]; intros s Hne;
    [contradiction|].
  cbn [dynamic_rnn].
  pose proof (stack_top_is_last_state cfg v inp s HL) as Htop.
  destruct (multi_rnn_cell_call cfg v inp s) as [out s1]. cbn [fst snd] in Htop.
  destruct rest as [|inp2 rest'].
  - cbn. exact Htop.
  - specialize (IH s1 ltac:(discriminate)).
    destruct (dynamic_rnn cfg v (inp2 :: rest') s1) as [outs fin] eqn:Hd.
    cbn [fst snd] in *.
    destruct outs as [|o outs'].
    + cbn in Hd. destruct (multi_rnn_cell_call cfg v inp2 s1) as [o2 s2].
      destruct (dynamic_rnn cfg v rest' s2). discriminate.
    + exact IH.
Qed.

(** X16. The last hidden output a chunk gives to the classifier is the
    hidden value of the top layer in the state the chunk returns. *)
Theorem last_output_is_top_hidden (cfg : Config) (v : Vars) (batchX : Grid)
  (init_state : Tensor4) :
  1 <= num_layers cfg ->
  truncated_backprop_length cfg <> 0 ->
  last (states_series cfg v batchX init_state) []
  = h (last (current_state cfg v batchX init_state) (mkLSTM [] [])).
Proof.
  intros HL HT. unfold states_series, current_state.
  apply dynamic_rnn_last; [exact HL|].
  intros Hnil. apply (f_equal (@length _)) in Hnil.
  rewrite rnn_inputs_length in Hnil. cbn in Hnil. contradiction.
Qed.

End Carried.

Lemma first_chunk_starts_from_zero_witness :
  runs_through toy_config /\
  exists r,
    nth_error (runs (@epoch_events toy_engine toy_config 2 toy_state 1)) 0 = Some r /\
    @rnn_tuple_state toy_engine toy_config (feed_array (feed_init_state r))
    = repeat (mkLSTM
                (repeat (repeat (@s_zero toy_engine) (state_size toy_config))
                   (batch_size toy_config))
                (repeat (repeat (@s_zero toy_engine) (state_size toy_config))
                   (batch_size toy_config)))
        (num_layers toy_config).
Proof.
  split; [exact toy_config_runs_through|].
  destruct (nth_error (runs (@epoch_events toy_engine toy_config 2 toy_state 1)) 0)
    as [r|] eqn:Hr; [|vm_compute in Hr; discriminate].
  exists r. split; [reflexivity|].
  exact (@first_chunk_starts_from_zero toy_engine toy_config 2 toy_state 1 r
           toy_config_runs_through eq_refl Hr).
Defined.

Lemma fetched_shapes_witness :
  runs_through toy_config /\
  num_batches toy_config = inr 2 /\
  forall r, In r (runs (events (@main toy_engine toy_config toy_state))) ->
    length (fetched_predictions_series r) = truncated_backprop_length toy_config /\
    Forall (fun p => length p = batch_size toy_config) (fetched_predictions_series r) /\
    length (fetched_current_state r) = num_layers toy_config.
Proof.
  split; [exact toy_config_runs_through|].
  split; [reflexivity|].
  intros r Hr.
  apply (@fetched_shapes toy_engine toy_config toy_state 2 r).
  - reflexivity.
  - exact toy_config_runs_through.
  - reflexivity.
  - exact Hr.
Defined.

Lemma last_output_is_top_hidden_witness :
  1 <= num_layers toy_config /\
  truncated_backprop_length toy_config <> 0 /\
  last (@states_series toy_engine toy_config 0 toy_batch []) []
  = h (last (@current_state toy_engine toy_config 0 toy_batch []) (mkLSTM [] [])).
Proof.
  split; [vm_compute; lia|].
  split; [discriminate|].
  apply (@last_output_is_top_hidden toy_engine toy_config 0 toy_batch []);
    [vm_compute; lia | discriminate].
Defined.

(** On the small configuration the second chunk of an epoch, fed the
    state the first one returned, ends in the state one pass over both
    chunks ends in. *)
Example toy_chunks_join :
  let x := fst (@epoch_grids toy_engine toy_config toy_state) in
  @current_state toy_engine (double_chunk toy_config) 0 (col_slice x 0 10) []
  = @current_state toy_engine toy_config 0 (col_slice x 5 10)
      (feed_array
         (StateTuples (@current_state toy_engine toy_config 0 (col_slice x 0 5) []))).
Proof. vm_compute. reflexivity. Qed.
